(** * pycobertura: coverage reports and coverage-delta reports

    A shallow embedding of [pycobertura/reporters.py].  The reporters turn the
    answers of a coverage source ([Cobertura]) or of a diff engine
    ([CoberturaDiff]) into rows, filter the rows of unchanged files out of a
    delta report, append a [TOTAL] footer and format every row for a text
    table or for an HTML template.

    Python values are embedded as follows: [int] is [Z]; [float] is an IEEE
    binary64 number, [spec_float] with precision 53 and maximal exponent
    1024; [str] is [string]; a [list] is a [list]; the two namedtuples
    [ClassRow] and [ClassRowMissed] are the two constructors of [Row]; an
    exception is the [Raise] branch of the [result] monad. *)

From Stdlib Require Import ZArith Bool List Ascii String SpecFloat.
From Stdlib Require Import DecimalString DecimalPos DecimalN DecimalZ.
From stdpp Require Import gmap strings list sorting.

Local Open Scope Z_scope.
Local Open Scope string_scope.
Local Open Scope list_scope.

(** ** Exceptions *)

Inductive exn : Type :=
| KeyError (key : string)
| AttributeError (attr : string)
| ValueError
| IndexError.

Inductive result (A : Type) : Type :=
| Ok (a : A)
| Raise (e : exn).

Arguments Ok {A} a.
Arguments Raise {A} e.

Definition bind {A B : Type} (m : result A) (k : A -> result B) : result B :=
  match m with
  | Ok a => k a
  | Raise e => Raise e
  end.

Notation "'let*' x ':=' m 'in' k" := (bind m (fun x => k))
  (at level 10, x name, m at level 100, k at level 200).

(** [for x in xs: ys.append(f(x))], the first exception ends the loop. *)
Fixpoint for_each {A B : Type} (f : A -> result B) (xs : list A)
  : result (list B) :=
  match xs with
  | [] => Ok []
  | x :: xs' =>
      let* y := f x in
      let* ys := for_each f xs' in
      Ok (y :: ys)
  end.

(** ** Python numbers and their formatting *)

Module Py.

(** A Python [float]. *)
Definition float : Type := spec_float.

Definition prec : Z := 53.
Definition emax : Z := 1024.

Definition fzero : float := S754_zero false.

(** The integer literal [100] as the float operand of [line_rate * 100]. *)
Definition f100 : float :=
  Eval vm_compute in binary_normalize prec emax 100 0 false.

(** [float(z)] for an [int] that a float holds exactly, and the float
    operations [*], [-] and [/]. *)
Definition float_of_Z (z : Z) : float := binary_normalize prec emax z 0 false.
Definition fmul (x y : float) : float := SFmul prec emax x y.
Definition fsub (x y : float) : float := SFsub prec emax x y.
Definition fdiv (x y : float) : float := SFdiv prec emax x y.

(** Truth value of an [int], of a [float] ([x != 0.0], so a NaN is true and
    a negative zero is false) and of a [list]. *)
Definition int_truthy (z : Z) : bool := negb (Z.eqb z 0).
Definition float_truthy (x : float) : bool := negb (SFeqb x fzero).
Definition list_truthy {A : Type} (l : list A) : bool :=
  match l with
  | [] => false
  | _ :: _ => true
  end.

Definition digits_of_pos (p : positive) : string :=
  NilEmpty.string_of_uint (Pos.to_uint p).

Definition digits_of_N (n : N) : string :=
  NilZero.string_of_uint (N.to_uint n).

(** ['%d' % z] and ['%s' % z] for an [int]. *)
Definition fmt_d (z : Z) : string :=
  match z with
  | Z0 => "0"
  | Zpos p => digits_of_pos p
  | Zneg p => "-" +:+ digits_of_pos p
  end.

(** ['%+d' % z]. *)
Definition fmt_plus_d (z : Z) : string :=
  match z with
  | Z0 => "+0"
  | Zpos p => "+" +:+ digits_of_pos p
  | Zneg p => "-" +:+ digits_of_pos p
  end.

(** [num / den] rounded to the nearest integer, ties to even. *)
Definition round_half_even (num den : Z) : Z :=
  let q := num / den in
  let r := num mod den in
  match Z.compare (2 * r) den with
  | Lt => q
  | Gt => q + 1
  | Eq => if Z.even q then q else q + 1
  end.

(** The magnitude [m * 2^e] in hundredths, correctly rounded. *)
Definition hundredths (m : positive) (e : Z) : Z :=
  match e with
  | Zneg k => round_half_even (Zpos m * 100) (2 ^ Zpos k)
  | _ => Zpos m * 2 ^ e * 100
  end.

Definition two_digits (n : Z) : string :=
  if Z.ltb n 10 then "0" +:+ digits_of_N (Z.to_N n) else digits_of_N (Z.to_N n).

Definition sign_of (plus : bool) (s : bool) : string :=
  if s then "-" else if plus then "+" else "".

(** ['%.2f' % x] ([plus = false]) and ['%+.2f' % x] ([plus = true]).  The
    sign of a NaN is ignored. *)
Definition fmt_f2 (plus : bool) (x : float) : string :=
  match x with
  | S754_nan => sign_of plus false +:+ "nan"
  | S754_infinity s => sign_of plus s +:+ "inf"
  | S754_zero s => sign_of plus s +:+ "0.00"
  | S754_finite s m e =>
      let c := hundredths m e in
      sign_of plus s +:+ digits_of_N (Z.to_N (c / 100)) +:+ "."
        +:+ two_digits (c mod 100)
  end.

(** ['%.2f%%' % (x * 100)] and ['%+.2f%%' % (x * 100)]. *)
Definition fmt_pct (x : float) : string :=
  fmt_f2 false (fmul x f100) +:+ "%".
Definition fmt_plus_pct (x : float) : string :=
  fmt_f2 true (fmul x f100) +:+ "%".

(** [sep.join(parts)]. *)
Definition join (sep : string) (parts : list string) : string :=
  String.concat sep parts.

(** A value that a caller can pass for a flag: Python does not restrict a
    keyword argument to [True] and [False]. *)
Inductive value : Type :=
| PyNone
| PyBool (b : bool)
| PyInt (z : Z)
| PyStr (s : string).

(** [v is True]: only the object [True] itself. *)
Definition is_True (v : value) : bool :=
  match v with
  | PyBool true => true
  | _ => false
  end.

(** The truth value of [v], as [if v:] tests it. *)
Definition truthy (v : value) : bool :=
  match v with
  | PyNone => false
  | PyBool b => b
  | PyInt z => int_truthy z
  | PyStr s => negb (String.eqb s "")
  end.

End Py.

(** ** Rows

    [class_row] and [class_row_missed]: the namedtuples [ClassRow]
    ([class_filename], [total_statements], [total_misses], [line_rate]) and
    [ClassRowMissed] (the same four and [missed_lines]).  The fields are
    untyped in Python: [S] is the type of the two counts, [R] of the line
    rate and [M] of the missed lines, before or after formatting. *)

Inductive Row (S R M : Type) : Type :=
| ClassRow (class_filename : string) (total_statements total_misses : S)
    (line_rate : R)
| ClassRowMissed (class_filename : string) (total_statements total_misses : S)
    (line_rate : R) (missed_lines : M).

Arguments ClassRow {S R M}.
Arguments ClassRowMissed {S R M}.

Section RowFields.
Context {S R M : Type}.

Definition class_filename (row : Row S R M) : string :=
  match row with
  | ClassRow n _ _ _ | ClassRowMissed n _ _ _ _ => n
  end.

Definition total_statements (row : Row S R M) : S :=
  match row with
  | ClassRow _ s _ _ | ClassRowMissed _ s _ _ _ => s
  end.

Definition total_misses (row : Row S R M) : S :=
  match row with
  | ClassRow _ _ m _ | ClassRowMissed _ _ m _ _ => m
  end.

Definition line_rate (row : Row S R M) : R :=
  match row with
  | ClassRow _ _ _ r | ClassRowMissed _ _ _ r _ => r
  end.

(** [row.missed_lines]: a [ClassRow] has no such attribute. *)
Definition missed_lines (row : Row S R M) : result M :=
  match row with
  | ClassRow _ _ _ _ => Raise (AttributeError "missed_lines")
  | ClassRowMissed _ _ _ _ ml => Ok ml
  end.

(** [len(row)]. *)
Definition row_len (row : Row S R M) : nat :=
  match row with
  | ClassRow _ _ _ _ => 4%nat
  | ClassRowMissed _ _ _ _ _ => 5%nat
  end.
End RowFields.

(** A row of a delta report before formatting: the deltas of the two counts,
    the delta of the line rate and the changed missed lines, each with its
    [is_new] flag. *)
Definition DeltaRow : Type := Row Z Py.float (list (Z * bool)).

(** [any(class_row[1:])]: the truth values of every field after the name. *)
Definition any_tail (class_row : DeltaRow) : bool :=
  match class_row with
  | ClassRow _ s m r =>
      Py.int_truthy s || Py.int_truthy m || Py.float_truthy r
  | ClassRowMissed _ s m r ml =>
      Py.int_truthy s || Py.int_truthy m || Py.float_truthy r
      || Py.list_truthy ml
  end.

(** ** The diff engine as the reporters see it *)

(** Modelled from the spec: the [Hunk] of [pycobertura.cobertura], whose
    source is not available: a contiguous block of source lines, each with
    its line number, its text and a status. *)
Inductive line_status : Type := Unchanged | NewMiss | FixedMiss | Context.

Definition Hunk : Type := list (Z * string * line_status).

(** The methods of [self.differ] that the reporters call.  [None] is the
    omitted [filename] argument. *)
Record Differ : Type := {
  class_files : list string;
  diff_total_statements : option string -> result Z;
  diff_total_misses : option string -> result Z;
  diff_line_rate : option string -> result Py.float;
  diff_missed_lines : string -> result (list (Z * bool));
  class_source_hunks : string -> result (list Hunk)
}.

(** ** [class DeltaReporter] *)

Module DeltaReporter.

(** [show_source_attr] is the attribute [self.show_source], the value the
    constructor was given. *)
Record t : Type := { differ : Differ; show_source_attr : Py.value }.

(** [self.show_source is True], the test of [get_class_row] and of the
    subclasses. *)
Definition show_source (self : t) : bool := Py.is_True (show_source_attr self).

(** The truth value of [self.show_source], the test of [get_footer_row]. *)
Definition show_source_truthy (self : t) : bool :=
  Py.truthy (show_source_attr self).

Definition get_class_row (self : t) (class_name : string)
  : result DeltaRow :=
  let* statements := diff_total_statements (differ self) (Some class_name) in
  let* misses := diff_total_misses (differ self) (Some class_name) in
  let* rate := diff_line_rate (differ self) (Some class_name) in
  if show_source self then
    let* missed := diff_missed_lines (differ self) class_name in
    Ok (ClassRowMissed class_name statements misses rate missed)
  else
    Ok (ClassRow class_name statements misses rate).

Definition get_footer_row (self : t) : result DeltaRow :=
  let* statements := diff_total_statements (differ self) None in
  let* misses := diff_total_misses (differ self) None in
  let* rate := diff_line_rate (differ self) None in
  if show_source_truthy self then
    Ok (ClassRowMissed "TOTAL" statements misses rate [])
  else
    Ok (ClassRow "TOTAL" statements misses rate).

(** The loop of [get_report_lines] over the remaining class files, [lines]
    being the rows appended so far. *)
Fixpoint report_class_rows (self : t) (names : list string)
  (lines : list DeltaRow) : result (list DeltaRow) :=
  match names with
  | [] => Ok lines
  | class_name :: names' =>
      let* class_row := get_class_row self class_name in
      if any_tail class_row
      then report_class_rows self names' (lines ++ [class_row])
      else report_class_rows self names' lines
  end.

Definition get_report_lines (self : t) : result (list DeltaRow) :=
  let* lines := report_class_rows self (class_files (differ self)) [] in
  let* footer := get_footer_row self in
  Ok (lines ++ [footer]).

End DeltaReporter.

(** ** [pycobertura.utils] *)

Module Utils.

(** Modelled from the spec: [rangify] of [pycobertura.utils], whose source
    is not available.  A single pass over an ascending list of line
    numbers: [start] opens the current run, [prev] is its last number so
    far; a number other than [prev + 1] closes the run. *)
Fixpoint rangify_run (start prev : Z) (numbers : list Z) : list (Z * Z) :=
  match numbers with
  | [] => [(start, prev)]
  | num :: numbers' =>
      if Z.eqb num (prev + 1)
      then rangify_run start num numbers'
      else (start, prev) :: rangify_run num num numbers'
  end.

(** Modelled from the spec: the entry point of [rangify]; empty input
    yields an empty sequence. *)
Definition rangify (number_list : list Z) : list (Z * Z) :=
  match number_list with
  | [] => []
  | num :: numbers => rangify_run num num numbers
  end.

(** [s[0] == '+']; indexing an empty string raises. *)
Definition starts_with_plus (s : string) : result bool :=
  match s with
  | EmptyString => Raise IndexError
  | String c _ => Ok (Ascii.eqb c "+")
  end.

End Utils.

(** ** The coverage source as the reporters see it *)

Module CoverageSource.

(** The methods of [self.cobertura] that the reporters call; [None] is the
    omitted [filename] argument and [Src] is what [class_file_source]
    returns, which the reporters hand on as it is. *)
Record t (Src : Type) : Type := {
  class_files : list string;
  total_statements : option string -> result Z;
  total_misses : option string -> result Z;
  line_rate : option string -> result Py.float;
  missed_lines : string -> result (list Z);
  class_file_source : string -> result Src
}.

Arguments class_files {Src} _.
Arguments total_statements {Src} _ _.
Arguments total_misses {Src} _ _.
Arguments line_rate {Src} _ _.
Arguments missed_lines {Src} _ _.
Arguments class_file_source {Src} _ _.

End CoverageSource.

(** ** [class Reporter] *)

Module Reporter.

Section Reporter.
Context {Src : Type}.

Record t : Type := { cobertura : CoverageSource.t Src }.

(** The loop of [get_report_lines] over the remaining class files, [lines]
    being the rows appended so far. *)
Fixpoint report_rows (self : t) (names : list string)
  (lines : list (Row Z Py.float (list Z)))
  : result (list (Row Z Py.float (list Z))) :=
  match names with
  | [] => Ok lines
  | class_filename :: names' =>
      let* statements :=
        CoverageSource.total_statements (cobertura self) (Some class_filename) in
      let* misses :=
        CoverageSource.total_misses (cobertura self) (Some class_filename) in
      let* rate :=
        CoverageSource.line_rate (cobertura self) (Some class_filename) in
      let* missed :=
        CoverageSource.missed_lines (cobertura self) class_filename in
      report_rows self names'
        (lines ++ [ClassRowMissed class_filename statements misses rate missed])
  end.

Definition get_report_lines (self : t)
  : result (list (Row Z Py.float (list Z))) :=
  let* lines :=
    report_rows self (CoverageSource.class_files (cobertura self)) [] in
  let* statements := CoverageSource.total_statements (cobertura self) None in
  let* misses := CoverageSource.total_misses (cobertura self) None in
  let* rate := CoverageSource.line_rate (cobertura self) None in
  Ok (lines ++ [ClassRowMissed "TOTAL" statements misses rate []]).

End Reporter.

Arguments t Src : clear implicits.

End Reporter.

(** ** [class TextReporter] *)

Module TextReporter.

(** One element of [formatted_missed_lines]. *)
Definition format_range (range : Z * Z) : string :=
  let '(line_start, line_stop) := range in
  if Z.eqb line_start line_stop
  then Py.fmt_d line_start
  else Py.fmt_d line_start +:+ "-" +:+ Py.fmt_d line_stop.

(** [format_row]: the row is unpacked into five names, which a four-field
    row does not allow. *)
Definition format_row (row : Row Z Py.float (list Z))
  : result (Row Z string string) :=
  match row with
  | ClassRow _ _ _ _ => Raise ValueError
  | ClassRowMissed class_filename total_lines total_misses line_rate
      missed_lines =>
      let line_rate := Py.fmt_pct line_rate in
      let formatted_missed_lines :=
        map format_range (Utils.rangify missed_lines) in
      let formatted_missed_lines := Py.join ", " formatted_missed_lines in
      Ok (ClassRowMissed class_filename total_lines total_misses line_rate
            formatted_missed_lines)
  end.

Section Generate.
Context {Src : Type}.
(** [tabulate] of the package of that name lays the rows out under the
    headers; the reporters do not depend on what it returns. *)
Variable tabulate : list (Row Z string string) -> list string -> string.

Definition generate (self : Reporter.t Src) : result string :=
  let* lines := Reporter.get_report_lines self in
  let* formatted_lines := for_each format_row lines in
  Ok (tabulate formatted_lines
        ["Filename"; "Stmts"; "Miss"; "Cover"; "Missing"]).
End Generate.

End TextReporter.

(** ** [class TextReporterDelta] *)

Module TextReporterDelta.

(** [color] is the test [self.color is True], the only one the class makes
    of that attribute. *)
Record t : Type := { base : DeltaReporter.t; color : bool }.

(** [self.show_source is True]. *)
Definition show_source (self : t) : bool :=
  DeltaReporter.show_source (base self).

(** [['-', '+'][is_new]]. *)
Definition marker (is_new : bool) : string :=
  if is_new then "+" else "-".

(** ['%s%d' % (['-', '+'][is_new], lno)]. *)
Definition format_missed_line (entry : Z * bool) : string :=
  let '(lno, is_new) := entry in
  marker is_new +:+ Py.fmt_d lno.

Section Colours.
(** [green] and [red] of [pycobertura.utils] wrap a text in terminal
    colour codes; the reporters do not depend on what they return. *)
Variables green red : string -> string.

(** [colorize = [green, red][text[0] == '+']; colorize(text)]. *)
Definition colorize (text : string) : result string :=
  let* plus := Utils.starts_with_plus text in
  Ok ((if plus then red else green) text).

Definition format_row (self : t) (row : DeltaRow) : result (list string) :=
  let total_statements_s :=
    if Py.int_truthy (total_statements row)
    then Py.fmt_plus_d (total_statements row) else "-" in
  let line_rate_s :=
    if Py.float_truthy (line_rate row)
    then Py.fmt_plus_pct (line_rate row) else "-" in
  let total_misses_s :=
    if Py.int_truthy (total_misses row)
    then Py.fmt_plus_d (total_misses row) else "-" in
  let* total_misses_s :=
    if color self && negb (String.eqb total_misses_s "-")
    then colorize total_misses_s
    else Ok total_misses_s in
  let* missing :=
    if show_source self then
      let* entries := missed_lines row in
      let missed := map format_missed_line entries in
      let* missed_lines_colored :=
        if color self then for_each colorize missed else Ok missed in
      Ok [Py.join ", " missed_lines_colored]
    else Ok [] in
  Ok ([class_filename row; total_statements_s; total_misses_s; line_rate_s]
        ++ missing).

(** [tabulate] of the package of that name lays the rows out under the
    headers; the reporters do not depend on what it returns. *)
Variable tabulate : list (list string) -> list string -> string.

Definition generate (self : t) : result string :=
  let* lines := DeltaReporter.get_report_lines (base self) in
  let* formatted_lines := for_each (format_row self) lines in
  let headers := ["Filename"; "Stmts"; "Miss"; "Cover"] in
  let headers := if show_source self then headers ++ ["Missing"] else headers in
  Ok (tabulate formatted_lines headers).
End Colours.

End TextReporterDelta.

(** ** [class HtmlReporterDelta] *)

Module HtmlReporterDelta.

(** The reporter inherits the attributes of [TextReporterDelta]. *)
Definition t : Type := TextReporterDelta.t.

Definition differ (self : t) : Differ :=
  DeltaReporter.differ (TextReporterDelta.base self).

Definition get_source_hunks (self : t) (class_filename : string)
  : result (list Hunk) :=
  class_source_hunks (differ self) class_filename.

Definition format_row (self : t) (row : DeltaRow)
  : result (Row string string (list string)) :=
  let total_statements_s :=
    if Py.int_truthy (total_statements row)
    then Py.fmt_plus_d (total_statements row) else "-" in
  let total_misses_s :=
    if Py.int_truthy (total_misses row)
    then Py.fmt_plus_d (total_misses row) else "-" in
  let line_rate_s :=
    if Py.float_truthy (line_rate row)
    then Py.fmt_plus_pct (line_rate row) else "-" in
  if TextReporterDelta.show_source self then
    let* entries := missed_lines row in
    let missed := map TextReporterDelta.format_missed_line entries in
    Ok (ClassRowMissed (class_filename row) total_statements_s
          total_misses_s line_rate_s missed)
  else
    Ok (ClassRow (class_filename row) total_statements_s total_misses_s
          line_rate_s).

(** The loop of [generate] over the remaining class files, [sources] being
    the pairs appended so far. *)
Fixpoint collect_sources (self : t) (names : list string)
  (sources : list (string * list Hunk))
  : result (list (string * list Hunk)) :=
  match names with
  | [] => Ok sources
  | class_filename :: names' =>
      let* source_hunks := get_source_hunks self class_filename in
      if negb (Py.list_truthy source_hunks)
      then collect_sources self names' sources
      else collect_sources self names'
             (sources ++ [(class_filename, source_hunks)])
  end.

(** The keyword arguments that [generate] hands to the template;
    [kw_sources] is [None] when the key [sources] is not set. *)
Record render_kwargs : Type := {
  kw_lines : list (Row string string (list string));
  kw_footer : Row string string (list string);
  kw_show_source : bool;
  kw_sources : option (list (string * list Hunk))
}.

(** [formatted_lines[-1]]. *)
Definition last_item {A : Type} (l : list A) : result A :=
  match rev l with
  | [] => Raise IndexError
  | x :: _ => Ok x
  end.

(** [generate], up to the call of the template, which is outside this
    file. *)
Definition generate (self : t) : result render_kwargs :=
  let* lines := DeltaReporter.get_report_lines (TextReporterDelta.base self) in
  let* formatted_lines := for_each (format_row self) lines in
  let* sources :=
    if TextReporterDelta.show_source self then
      let* sources :=
        collect_sources self (class_files (differ self)) [] in
      Ok (Some sources)
    else Ok None in
  let* footer := last_item formatted_lines in
  Ok {| kw_lines := removelast formatted_lines;
        kw_footer := footer;
        kw_show_source := TextReporterDelta.show_source self;
        kw_sources := sources |}.

End HtmlReporterDelta.

(** ** [class HtmlReporter] *)

Module HtmlReporter.

Section HtmlReporter.
Context {Src : Type}.

Definition get_source (self : Reporter.t Src) (class_filename : string)
  : result Src :=
  CoverageSource.class_file_source (Reporter.cobertura self) class_filename.

(** The loop of [generate] over the remaining class files, [sources] being
    the pairs appended so far. *)
Fixpoint collect_sources (self : Reporter.t Src) (names : list string)
  (sources : list (string * Src)) : result (list (string * Src)) :=
  match names with
  | [] => Ok sources
  | class_filename :: names' =>
      let* source := get_source self class_filename in
      collect_sources self names' (sources ++ [(class_filename, source)])
  end.

(** The keyword arguments that [generate] hands to the template. *)
Record render_kwargs : Type := {
  kw_lines : list (Row Z string string);
  kw_footer : Row Z string string;
  kw_sources : list (string * Src)
}.

(** [generate], up to the call of the template, which is outside this
    file. *)
Definition generate (self : Reporter.t Src) : result render_kwargs :=
  let* lines := Reporter.get_report_lines self in
  let* formatted_lines := for_each TextReporter.format_row lines in
  let* sources :=
    collect_sources self
      (CoverageSource.class_files (Reporter.cobertura self)) [] in
  let* footer := HtmlReporterDelta.last_item formatted_lines in
  Ok {| kw_lines := removelast formatted_lines;
        kw_footer := footer;
        kw_sources := sources |}.

End HtmlReporter.

Arguments render_kwargs Src : clear implicits.

End HtmlReporter.

(** ** [pycobertura.cobertura] *)

Module Cobertura.

(** Modelled from the spec: the per-file data of a coverage snapshot
    ([CoverageSource]), whose source is not available: statement and miss
    counts, line rate, the missed line numbers and, when it is available,
    the source text. *)
Record class_file : Type := {
  cf_total_statements : Z;
  cf_total_misses : Z;
  cf_line_rate : Py.float;
  cf_missed_lines : list Z;
  cf_source_lines : option (list (Z * string))
}.

(** Modelled from the spec: a coverage snapshot, the files it knows by
    identifier and the whole-snapshot totals it exposes. *)
Record t : Type := {
  files : gmap string class_file;
  all_total_statements : Z;
  all_total_misses : Z;
  all_line_rate : Py.float
}.

(** Modelled from the spec: a line rate lies between 0 and 1. *)
Definition rate_in_range (rate : Py.float) : bool :=
  SFleb Py.fzero rate && SFleb rate (Py.float_of_Z 1).

(** Modelled from the spec: the line rates of a snapshot, of its files and
    of the whole, are in range. *)
Definition rates_in_range (c : t) : bool :=
  rate_in_range (all_line_rate c)
  && forallb (fun entry => rate_in_range (cf_line_rate (snd entry)))
       (map_to_list (files c)).

End Cobertura.

Module CoberturaDiff.

(** Modelled from the spec: the diff engine ([CoberturaDiff]), whose source
    is not available, over an old snapshot [cobertura1] and a new snapshot
    [cobertura2]. *)
Record t : Type := {
  cobertura1 : Cobertura.t;
  cobertura2 : Cobertura.t
}.

Definition lookup1 (self : t) (name : string) : option Cobertura.class_file :=
  Cobertura.files (cobertura1 self) !! name.
Definition lookup2 (self : t) (name : string) : option Cobertura.class_file :=
  Cobertura.files (cobertura2 self) !! name.

(** Modelled from the spec: the union of the identifiers of the two
    snapshots. *)
Definition class_files (self : t) : list string :=
  elements (dom (Cobertura.files (cobertura1 self))
              ∪ dom (Cobertura.files (cobertura2 self))).

(** Modelled from the spec: a file absent from a snapshot counts as zero
    there. *)
Definition count_or_zero (get : Cobertura.class_file -> Z)
  (file : option Cobertura.class_file) : Z :=
  match file with
  | Some f => get f
  | None => 0
  end.

Definition rate_or_zero (file : option Cobertura.class_file) : Py.float :=
  match file with
  | Some f => Cobertura.cf_line_rate f
  | None => Py.fzero
  end.

Definition lines_or_none (file : option Cobertura.class_file) : list Z :=
  match file with
  | Some f => Cobertura.cf_missed_lines f
  | None => []
  end.

(** Modelled from the spec: an identifier of neither snapshot is a
    [KeyError]. *)
Definition known {A : Type} (self : t) (name : string) (value : A)
  : result A :=
  match lookup1 self name, lookup2 self name with
  | None, None => Raise (KeyError name)
  | _, _ => Ok value
  end.

(** Modelled from the spec: new minus old, for a file or, without an
    identifier, for the whole snapshots. *)
Definition diff_total_statements (self : t) (filename : option string)
  : result Z :=
  match filename with
  | None =>
      Ok (Cobertura.all_total_statements (cobertura2 self)
          - Cobertura.all_total_statements (cobertura1 self))
  | Some name =>
      known self name
        (count_or_zero Cobertura.cf_total_statements (lookup2 self name)
         - count_or_zero Cobertura.cf_total_statements (lookup1 self name))
  end.

Definition diff_total_misses (self : t) (filename : option string)
  : result Z :=
  match filename with
  | None =>
      Ok (Cobertura.all_total_misses (cobertura2 self)
          - Cobertura.all_total_misses (cobertura1 self))
  | Some name =>
      known self name
        (count_or_zero Cobertura.cf_total_misses (lookup2 self name)
         - count_or_zero Cobertura.cf_total_misses (lookup1 self name))
  end.

Definition diff_line_rate (self : t) (filename : option string)
  : result Py.float :=
  match filename with
  | None =>
      Ok (Py.fsub (Cobertura.all_line_rate (cobertura2 self))
            (Cobertura.all_line_rate (cobertura1 self)))
  | Some name =>
      known self name
        (Py.fsub (rate_or_zero (lookup2 self name))
           (rate_or_zero (lookup1 self name)))
  end.

(** [xs] without the numbers of [ys], each tagged with [is_new]. *)
Definition only_in (is_new : bool) (xs ys : list Z) : list (Z * bool) :=
  map (fun lno => (lno, is_new))
    (List.filter (fun lno => negb (existsb (Z.eqb lno) ys)) xs).

Fixpoint insert_by_line (entry : Z * bool) (sorted : list (Z * bool))
  : list (Z * bool) :=
  match sorted with
  | [] => [entry]
  | e :: sorted' =>
      if Z.leb (fst entry) (fst e) then entry :: sorted
      else e :: insert_by_line entry sorted'
  end.

Definition sort_by_line (entries : list (Z * bool)) : list (Z * bool) :=
  fold_right insert_by_line [] entries.

(** Modelled from the spec: the symmetric difference of the missed lines of
    the two snapshots; a line missed only in the new one has
    [is_new = true], a line missed only in the old one [is_new = false];
    sorted by line number. *)
Definition diff_missed_lines (self : t) (name : string)
  : result (list (Z * bool)) :=
  let old := lines_or_none (lookup1 self name) in
  let new := lines_or_none (lookup2 self name) in
  known self name (sort_by_line (only_in false old new ++ only_in true new old)).

Section Hunks.
(** The grouping of the tagged source lines of a file into hunks, which
    the spec leaves open: from the old text, the new text and the changed
    missed lines to the hunks. *)
Variable group_hunks :
  list (Z * string) -> list (Z * string) -> list (Z * bool) -> list Hunk.

(** Modelled from the spec: the hunks of a file; an empty sequence when
    either snapshot lacks its source text. *)
Definition class_source_hunks (self : t) (name : string)
  : result (list Hunk) :=
  let* changed := diff_missed_lines self name in
  match lookup1 self name, lookup2 self name with
  | Some f1, Some f2 =>
      match Cobertura.cf_source_lines f1, Cobertura.cf_source_lines f2 with
      | Some old, Some new => Ok (group_hunks old new changed)
      | _, _ => Ok []
      end
  | _, _ => Ok []
  end.

(** The engine behind the interface of the reporters. *)
Definition as_differ (self : t) : Differ :=
  Build_Differ (class_files self) (diff_total_statements self)
    (diff_total_misses self) (diff_line_rate self)
    (diff_missed_lines self) (class_source_hunks self).
End Hunks.

End CoberturaDiff.

(** ** What the reporters need from the engine *)

Definition is_ok {A : Type} (m : result A) : bool :=
  match m with
  | Ok _ => true
  | Raise _ => false
  end.

(** The engine answers every question a delta report asks: the three totals
    of the whole snapshots and, for every class file it enumerates, the three
    deltas and, when the report shows the missed lines, their changes. *)
Definition answers (d : Differ) (with_lines : bool) : bool :=
  is_ok (diff_total_statements d None)
  && is_ok (diff_total_misses d None)
  && is_ok (diff_line_rate d None)
  && forallb
       (fun name =>
          is_ok (diff_total_statements d (Some name))
          && is_ok (diff_total_misses d (Some name))
          && is_ok (diff_line_rate d (Some name))
          && (negb with_lines || is_ok (diff_missed_lines d name)))
       (class_files d).

(** The engine answers for the source hunks of every class file. *)
Definition answers_hunks (d : Differ) : bool :=
  forallb (fun name => is_ok (class_source_hunks d name)) (class_files d).

(** ** What a rendered delta denotes

    The meaning of the cells, stated without the functions that produce
    them. *)

(** The digit that a character stands for: the characters from ["0"] to
    ["9"] have the codes 48 to 57. *)
Definition digit_value (c : ascii) : option Z :=
  let code := Z.of_N (N_of_ascii c) in
  if Z.leb 48 code && Z.leb code 57 then Some (code - 48) else None.

(** The number that a string of digits stands for, read after [acc]. *)
Fixpoint decimal_value_from (acc : Z) (digits : string) : option Z :=
  match digits with
  | EmptyString => Some acc
  | String c digits' =>
      match digit_value c with
      | Some d => decimal_value_from (10 * acc + d) digits'
      | None => None
      end
  end.

Definition decimal_value (digits : string) : option Z :=
  match digits with
  | EmptyString => None
  | String _ _ => decimal_value_from 0 digits
  end.

(** [digits] is the decimal numeral of [n]: it stands for [n] and has no
    leading zero, the numeral ["0"] apart. *)
Definition decimal_of (n : Z) (digits : string) : Prop :=
  decimal_value digits = Some n
  /\ forall rest, digits = String "0" rest -> rest = "".

(** [cell] is an integer with an explicit sign: [+] for a positive number,
    [-] for a negative one, then the numeral of its magnitude. *)
Definition signed_int (z : Z) (cell : string) : Prop :=
  exists digits,
    cell = String (if Z.ltb 0 z then "+" else "-")%char digits
    /\ decimal_of (Z.abs z) digits.

(** [n] is the integer nearest to [num / den], the even one of two that are
    equally near. *)
Definition nearest_even (num den n : Z) : Prop :=
  2 * Z.abs (n * den - num) <= den
  /\ (2 * Z.abs (n * den - num) = den -> Z.even n = true).

(** [cell] is the float [x] as a percentage with an explicit sign and two
    decimals: the sign of [x], the numeral of the whole part, a point, two
    digits and a percent sign, where whole part and digits are the magnitude
    of [x], [m * 2^e], rounded to the nearest hundredth; an infinity is
    [inf] and a NaN, whose sign is not shown, [+nan]. *)
Definition signed_percent (x : Py.float) (cell : string) : Prop :=
  match x with
  | S754_nan => cell = "+nan%"
  | S754_infinity s => cell = String (if s then "-" else "+")%char "inf%"
  | S754_zero s => cell = String (if s then "-" else "+")%char "0.00%"
  | S754_finite s m e =>
      exists whole frac n f,
        cell = String (if s then "-" else "+")%char
                 (whole +:+ "." +:+ frac +:+ "%")
        /\ decimal_of n whole
        /\ String.length frac = 2%nat
        /\ decimal_value frac = Some f
        /\ nearest_even (100 * Zpos m * 2 ^ Z.max e 0) (2 ^ Z.max (- e) 0)
             (100 * n + f)
  end.

(** [cell] shows a delta: the bare ["-"] exactly when the delta is zero,
    something that [signed] describes when it is not, and never ["+0"]. *)
Definition delta_cell (zero : Prop) (signed : string -> Prop) (cell : string)
  : Prop :=
  (zero -> cell = "-")
  /\ (~ zero -> signed cell)
  /\ (cell = "-" <-> zero)
  /\ cell <> "+0".

(** A colour function puts something before and after the text, as the
    escape codes of a terminal are. *)
Definition wraps (colour : string -> string) : Prop :=
  forall text, exists before after, colour text = before +:+ text +:+ after.

(** ** Example snapshots *)

Module Example.

(** [n / 10] as Python computes it. *)
Definition tenths (n : Z) : Py.float :=
  Py.fdiv (Py.float_of_Z n) (Py.float_of_Z 10).

Definition text (lines : list Z) : option (list (Z * string)) :=
  Some (map (fun lno => (lno, "pass")) lines).

(** The old snapshot: [a.py] misses lines 3, 4 and 9 of its ten
    statements; [b.py] has no source text. *)
Definition old_snapshot : Cobertura.t :=
  {| Cobertura.files :=
       {[ "a.py" := Cobertura.Build_class_file 10 3 (tenths 7) [3; 4; 9]
                      (text [1; 2; 3; 4; 5; 6; 7; 8; 9; 10]);
          "b.py" := Cobertura.Build_class_file 10 5 (tenths 5)
                      [1; 2; 3; 4; 5] None ]};
     Cobertura.all_total_statements := 20;
     Cobertura.all_total_misses := 8;
     Cobertura.all_line_rate := tenths 6 |}.

(** The new snapshot: [a.py] now misses lines 4 and 5; [b.py] is as it
    was; [c.py] is a new file with five statements and two misses. *)
Definition new_snapshot : Cobertura.t :=
  {| Cobertura.files :=
       {[ "a.py" := Cobertura.Build_class_file 10 2 (tenths 8) [4; 5]
                      (text [1; 2; 3; 4; 5; 6; 7; 8; 9; 10]);
          "b.py" := Cobertura.Build_class_file 10 5 (tenths 5)
                      [1; 2; 3; 4; 5] None;
          "c.py" := Cobertura.Build_class_file 5 2 (tenths 6) [1; 2]
                      (text [1; 2; 3; 4; 5]) ]};
     Cobertura.all_total_statements := 25;
     Cobertura.all_total_misses := 9;
     Cobertura.all_line_rate := Py.fdiv (Py.float_of_Z 16) (Py.float_of_Z 25) |}.

(** Line 3 of [a.py] is missed before, line 5 after: another line of the
    same ten statements, and the same counts and line rate. *)
Definition churn_old : Cobertura.t :=
  {| Cobertura.files :=
       {[ "a.py" := Cobertura.Build_class_file 10 1 (tenths 9) [3] None ]};
     Cobertura.all_total_statements := 10;
     Cobertura.all_total_misses := 1;
     Cobertura.all_line_rate := tenths 9 |}.

Definition churn_new : Cobertura.t :=
  {| Cobertura.files :=
       {[ "a.py" := Cobertura.Build_class_file 10 1 (tenths 9) [5] None ]};
     Cobertura.all_total_statements := 10;
     Cobertura.all_total_misses := 1;
     Cobertura.all_line_rate := tenths 9 |}.

(** A grouping that shows the whole new text as one hunk. *)
Definition one_hunk (old new : list (Z * string)) (changed : list (Z * bool))
  : list Hunk :=
  [map (fun '(lno, line) =>
          (lno, line,
            match List.find (fun c => Z.eqb (fst c) lno) changed with
            | Some (_, true) => NewMiss
            | Some (_, false) => FixedMiss
            | None => Unchanged
            end)) new].

Definition engine (old new : Cobertura.t) : Differ :=
  CoberturaDiff.as_differ one_hunk (CoberturaDiff.Build_t old new).

Definition reporter (show_source : bool) : DeltaReporter.t :=
  DeltaReporter.Build_t (engine old_snapshot new_snapshot)
    (Py.PyBool show_source).

Definition churn_reporter (show_source : bool) : DeltaReporter.t :=
  DeltaReporter.Build_t (engine churn_old churn_new) (Py.PyBool show_source).

Definition html_reporter (show_source : bool) : HtmlReporterDelta.t :=
  TextReporterDelta.Build_t (reporter show_source) false.

(** Colour wrappers in the manner of terminal escape codes. *)
Definition green (text : string) : string := "<g>" +:+ text +:+ "</g>".
Definition red (text : string) : string := "<r>" +:+ text +:+ "</r>".

End Example.

(** ** What the reporters need from the coverage source *)

Section SourceAnswers.
Context {Src : Type}.

(** The source answers every question a report asks: the three totals of
    the snapshot and, for every class file it enumerates, the three numbers
    and the missed lines. *)
Definition source_answers (c : CoverageSource.t Src) : bool :=
  is_ok (CoverageSource.total_statements c None)
  && is_ok (CoverageSource.total_misses c None)
  && is_ok (CoverageSource.line_rate c None)
  && forallb
       (fun name =>
          is_ok (CoverageSource.total_statements c (Some name))
          && is_ok (CoverageSource.total_misses c (Some name))
          && is_ok (CoverageSource.line_rate c (Some name))
          && is_ok (CoverageSource.missed_lines c name))
       (CoverageSource.class_files c).

(** The source answers for the source text of every class file. *)
Definition source_answers_text (c : CoverageSource.t Src) : bool :=
  forallb (fun name => is_ok (CoverageSource.class_file_source c name))
    (CoverageSource.class_files c).

(** A method of the source raises [e]. *)
Definition source_raises (c : CoverageSource.t Src) (e : exn) : Prop :=
  (exists filename,
     CoverageSource.total_statements c filename = Raise e
     \/ CoverageSource.total_misses c filename = Raise e
     \/ CoverageSource.line_rate c filename = Raise e)
  \/ (exists name,
        CoverageSource.missed_lines c name = Raise e
        \/ CoverageSource.class_file_source c name = Raise e).

End SourceAnswers.

(** A method of the engine raises [e]. *)
Definition engine_raises (d : Differ) (e : exn) : Prop :=
  (exists filename,
     diff_total_statements d filename = Raise e
     \/ diff_total_misses d filename = Raise e
     \/ diff_line_rate d filename = Raise e)
  \/ (exists name,
        diff_missed_lines d name = Raise e
        \/ class_source_hunks d name = Raise e).

(** ** An example coverage source *)

Module ExampleSource.

(** [table[name]]: a name that is not a key raises. *)
Definition lookup {A : Type} (table : list (string * A)) (name : string)
  : result A :=
  match List.find (fun entry => String.eqb (fst entry) name) table with
  | Some entry => Ok (snd entry)
  | None => Raise (KeyError name)
  end.

Definition per_file {A : Type} (total : A) (table : list (string * A))
  (filename : option string) : result A :=
  match filename with
  | None => Ok total
  | Some name => lookup table name
  end.

(** Two files of ten statements each; the source text is a list of lines. *)
Definition source : CoverageSource.t (list string) :=
  {| CoverageSource.class_files := ["a.py"; "b.py"];
     CoverageSource.total_statements :=
       per_file 20 [("a.py", 10); ("b.py", 10)];
     CoverageSource.total_misses := per_file 9 [("a.py", 6); ("b.py", 3)];
     CoverageSource.line_rate :=
       per_file (Py.fdiv (Py.float_of_Z 11) (Py.float_of_Z 20))
         [("a.py", Example.tenths 4); ("b.py", Example.tenths 7)];
     CoverageSource.missed_lines :=
       lookup [("a.py", [1; 2; 3; 7; 8; 10]); ("b.py", [4; 5; 6])];
     CoverageSource.class_file_source :=
       lookup [("a.py", ["import os"; "pass"]); ("b.py", ["pass"])] |}.

Definition reporter : Reporter.t (list string) :=
  {| Reporter.cobertura := source |}.

(** The same source without the text of [b.py]. *)
Definition source_without_text : CoverageSource.t (list string) :=
  {| CoverageSource.class_files := CoverageSource.class_files source;
     CoverageSource.total_statements := CoverageSource.total_statements source;
     CoverageSource.total_misses := CoverageSource.total_misses source;
     CoverageSource.line_rate := CoverageSource.line_rate source;
     CoverageSource.missed_lines := CoverageSource.missed_lines source;
     CoverageSource.class_file_source :=
       lookup [("a.py", ["import os"; "pass"])] |}.

(** An engine that lists a file it has no data for. *)
Definition stale_engine : Differ :=
  {| class_files := ["a.py"; "gone.py"; "c.py"];
     diff_total_statements := per_file 5 [("a.py", 0); ("c.py", 5)];
     diff_total_misses := per_file 1 [("a.py", -1); ("c.py", 2)];
     diff_line_rate :=
       per_file (Example.tenths 1)
         [("a.py", Example.tenths 1); ("c.py", Example.tenths 6)];
     diff_missed_lines :=
       lookup [("a.py", [(3, false); (5, true); (9, false)]);
               ("c.py", [(1, true); (2, true)])];
     class_source_hunks := lookup [("a.py", []); ("c.py", [])] |}.

(** A table as a list of lines, cells separated by a bar. *)
Definition tabulate (rows : list (list string)) (headers : list string)
  : string :=
  Py.join "; " (map (Py.join "|") (headers :: rows)).

End ExampleSource.

(** * Properties *)

(** ** The [result] monad and loops *)

Lemma is_ok_true {A : Type} (m : result A) :
  is_ok m = true -> exists a, m = Ok a.
Proof. destruct m as [a|e]; [eauto | discriminate]. Qed.

Lemma bind_ok {A B : Type} (m : result A) (k : A -> result B) (b : B) :
  bind m k = Ok b -> exists a, m = Ok a /\ k a = Ok b.
Proof. destruct m as [a|e]; simpl; [eauto | discriminate]. Qed.

Lemma for_each_returns {A B : Type} (f : A -> result B) (xs : list A) :
  (forall x, In x xs -> exists y, f x = Ok y) ->
  exists ys, for_each f xs = Ok ys.
Proof.
  induction xs as [|x xs IH]; intros Hall; simpl.
  - eauto.
  - destruct (Hall x) as [y Hy]; [now left|].
    destruct IH as [ys Hys]; [intros x' Hx'; apply Hall; now right|].
    rewrite Hy, Hys. simpl. eauto.
Qed.

Lemma for_each_pointwise {A B : Type} (f : A -> result B) (xs : list A)
  (ys : list B) :
  for_each f xs = Ok ys -> Forall2 (fun x y => f x = Ok y) xs ys.
Proof.
  revert ys. induction xs as [|x xs IH]; simpl; intros ys Hys.
  - injection Hys as <-. constructor.
  - apply bind_ok in Hys as (y & Hy & Hys).
    apply bind_ok in Hys as (ys' & Hys' & Hys).
    injection Hys as <-. constructor; auto.
Qed.

Lemma Forall2_In_l {A B : Type} (R : A -> B -> Prop) (xs : list A)
  (ys : list B) (x : A) :
  Forall2 R xs ys -> In x xs -> exists y, In y ys /\ R x y.
Proof.
  induction 1 as [|x' y' xs ys Hxy _ IH]; simpl; [tauto|].
  intros [->|Hin]; [eauto|].
  destruct (IH Hin) as (y & Hy & HR). eauto.
Qed.

Lemma Forall2_In_r {A B : Type} (R : A -> B -> Prop) (xs : list A)
  (ys : list B) (y : B) :
  Forall2 R xs ys -> In y ys -> exists x, In x xs /\ R x y.
Proof.
  induction 1 as [|x' y' xs ys Hxy _ IH]; simpl; [tauto|].
  intros [->|Hin]; [eauto|].
  destruct (IH Hin) as (x & Hx & HR). eauto.
Qed.

Lemma removelast_snoc {A : Type} (l : list A) (x : A) :
  removelast (l ++ [x]) = l.
Proof. apply removelast_last. Qed.

(** ** The report lines of a delta report *)

Section ReportLines.
Import DeltaReporter.

Variable self : DeltaReporter.t.

Let d : Differ := differ self.

(** The loop keeps, in order, the rows with a true field after the name. *)
Lemma report_class_rows_filter (names : list string) (lines : list DeltaRow) :
  report_class_rows self names lines =
  let* rows := for_each (get_class_row self) names in
  Ok (lines ++ List.filter any_tail rows).
Proof.
  revert lines. induction names as [|name names IH]; intros lines; simpl.
  - now rewrite app_nil_r.
  - destruct (get_class_row self name) as [row|e]; simpl; [|reflexivity].
    destruct (any_tail row) eqn:Hkeep; rewrite IH;
      destruct (for_each (get_class_row self) names) as [rows|e]; simpl;
      rewrite ?Hkeep; try reflexivity.
    now rewrite <- app_assoc.
Qed.

Lemma get_report_lines_filter :
  get_report_lines self =
  let* rows := for_each (get_class_row self) (class_files d) in
  let* footer := get_footer_row self in
  Ok (List.filter any_tail rows ++ [footer]).
Proof.
  unfold get_report_lines. rewrite report_class_rows_filter.
  fold d. destruct (for_each (get_class_row self) (class_files d)); reflexivity.
Qed.

Hypothesis Hanswers : answers d (show_source self) = true.

Lemma footer_returns :
  exists s m r,
    diff_total_statements d None = Ok s
    /\ diff_total_misses d None = Ok m
    /\ diff_line_rate d None = Ok r
    /\ get_footer_row self =
       Ok (if show_source_truthy self then ClassRowMissed "TOTAL" s m r []
           else ClassRow "TOTAL" s m r).
Proof.
  pose proof Hanswers as Ha. unfold answers in Ha.
  repeat (apply andb_prop in Ha as [Ha ?]).
  destruct (is_ok_true _ Ha) as [s Hs].
  destruct (is_ok_true _ H1) as [m Hm].
  destruct (is_ok_true _ H0) as [r Hr].
  exists s, m, r. repeat (split; [assumption|]).
  unfold get_footer_row. fold d.
  rewrite Hs, Hm, Hr. simpl. now destruct (show_source_truthy self).
Qed.

Lemma class_row_returns (name : string) :
  In name (class_files d) ->
  exists s m r,
    diff_total_statements d (Some name) = Ok s
    /\ diff_total_misses d (Some name) = Ok m
    /\ diff_line_rate d (Some name) = Ok r
    /\ if show_source self
       then exists ml, diff_missed_lines d name = Ok ml
              /\ get_class_row self name = Ok (ClassRowMissed name s m r ml)
       else get_class_row self name = Ok (ClassRow name s m r).
Proof.
  intros Hin. pose proof Hanswers as Ha. unfold answers in Ha.
  apply andb_prop in Ha as [_ Hall].
  rewrite forallb_forall in Hall. specialize (Hall name Hin).
  repeat (apply andb_prop in Hall as [Hall ?]).
  destruct (is_ok_true _ Hall) as [s Hs].
  destruct (is_ok_true _ H1) as [m Hm].
  destruct (is_ok_true _ H0) as [r Hr].
  exists s, m, r. repeat (split; [assumption|]).
  unfold get_class_row. fold d. rewrite Hs, Hm, Hr. simpl.
  destruct (show_source self); simpl in *; auto.
  destruct (is_ok_true _ H) as [ml Hml]. exists ml. now rewrite Hml.
Qed.

Lemma class_rows_return :
  exists rows, for_each (get_class_row self) (class_files d) = Ok rows.
Proof.
  apply for_each_returns. intros name Hin.
  destruct (class_row_returns name Hin) as (s & m & r & _ & _ & _ & Hrow).
  destruct (show_source self); [destruct Hrow as (ml & _ & Hrow)|]; eauto.
Qed.

Lemma get_report_lines_returns :
  exists rows footer,
    for_each (get_class_row self) (class_files d) = Ok rows
    /\ get_footer_row self = Ok footer
    /\ get_report_lines self = Ok (List.filter any_tail rows ++ [footer]).
Proof.
  destruct class_rows_return as [rows Hrows].
  destruct footer_returns as (s & m & r & _ & _ & _ & Hfooter).
  eexists rows, _. rewrite get_report_lines_filter, Hrows, Hfooter.
  simpl. auto.
Qed.

End ReportLines.

Lemma get_class_row_name (self : DeltaReporter.t) (name : string)
  (row : DeltaRow) :
  DeltaReporter.get_class_row self name = Ok row -> class_filename row = name.
Proof.
  unfold DeltaReporter.get_class_row. intros H.
  apply bind_ok in H as (s & _ & H). apply bind_ok in H as (m & _ & H).
  apply bind_ok in H as (r & _ & H).
  destruct (DeltaReporter.show_source self).
  - apply bind_ok in H as (ml & _ & H). now injection H as <-.
  - now injection H as <-.
Qed.

(** ** Truth values *)

Lemma int_truthy_nonzero (z : Z) : Py.int_truthy z = true <-> z <> 0.
Proof.
  unfold Py.int_truthy. rewrite negb_true_iff. apply Z.eqb_neq.
Qed.

Lemma float_truthy_nonzero (x : Py.float) :
  Py.float_truthy x = true <-> forall s, x <> S754_zero s.
Proof.
  destruct x as [s|s| |s m e]; try destruct s; cbn; split;
    try discriminate; try reflexivity; intros H;
    try (now exfalso; eapply H).
Qed.

Lemma list_truthy_nonempty {A : Type} (l : list A) :
  Py.list_truthy l = true <-> l <> [].
Proof. destruct l; cbn; split; congruence. Qed.

(** ** [DeltaReporter.get_report_lines] *)

(** C1, as the code has it: the row of a class file is in the report exactly
    when one of its three scalar deltas is not zero or, with [show_source]
    set, when its list of changed missed lines is not empty. *)
Theorem get_report_lines_keeps_changed (self : DeltaReporter.t)
  (Hanswers :
     answers (DeltaReporter.differ self) (DeltaReporter.show_source self)
     = true) :
  exists lines,
    DeltaReporter.get_report_lines self = Ok lines
    /\ forall name,
        In name (class_files (DeltaReporter.differ self)) ->
        exists row,
          DeltaReporter.get_class_row self name = Ok row
          /\ (In row (removelast lines) <->
              total_statements row <> 0
              \/ total_misses row <> 0
              \/ (forall s, line_rate row <> S754_zero s)
              \/ (DeltaReporter.show_source self = true
                  /\ missed_lines row <> Ok [])).
Proof.
  destruct (get_report_lines_returns self Hanswers)
    as (rows & footer & Hrows & Hfooter & Hlines).
  exists (List.filter any_tail rows ++ [footer]). split; [exact Hlines|].
  intros name Hin. rewrite removelast_snoc.
  apply for_each_pointwise in Hrows.
  destruct (Forall2_In_l _ _ _ _ Hrows Hin) as (row & Hrow_in & Hrow).
  exists row. split; [exact Hrow|].
  rewrite filter_In.
  destruct (class_row_returns self Hanswers name Hin)
    as (s & m & r & _ & _ & _ & Hshape).
  assert (Hany : any_tail row = true <->
            total_statements row <> 0 \/ total_misses row <> 0
            \/ (forall s, line_rate row <> S754_zero s)
            \/ (DeltaReporter.show_source self = true
                /\ missed_lines row <> Ok [])).
  { destruct (DeltaReporter.show_source self).
    - destruct Hshape as (ml & _ & Hmissed).
      rewrite Hrow in Hmissed. injection Hmissed as ->. cbn.
      rewrite !orb_true_iff, !int_truthy_nonzero, float_truthy_nonzero,
        list_truthy_nonempty.
      split.
      + intros [[[H|H]|H]|H]; auto.
        do 3 right. split; [reflexivity | congruence].
      + intros [H|[H|[H|[_ H]]]]; auto. right. congruence.
    - rewrite Hrow in Hshape. injection Hshape as ->. cbn.
      rewrite !orb_true_iff, !int_truthy_nonzero, float_truthy_nonzero.
      split.
      + intros [[H|H]|H]; auto.
      + intros [H|[H|[H|[H _]]]]; auto; discriminate. }
  rewrite <- Hany. tauto.
Qed.

(** The engine of the example answers, and [a.py] is among its files. *)
Lemma get_report_lines_keeps_changed_witness :
  answers (DeltaReporter.differ (Example.reporter true))
    (DeltaReporter.show_source (Example.reporter true)) = true
  /\ exists lines,
      DeltaReporter.get_report_lines (Example.reporter true) = Ok lines
      /\ forall name,
          In name (class_files (DeltaReporter.differ (Example.reporter true))) ->
          exists row,
            DeltaReporter.get_class_row (Example.reporter true) name = Ok row
            /\ (In row (removelast lines) <->
                total_statements row <> 0
                \/ total_misses row <> 0
                \/ (forall s, line_rate row <> S754_zero s)
                \/ (DeltaReporter.show_source (Example.reporter true) = true
                    /\ missed_lines row <> Ok [])).
Proof.
  split; [vm_compute; reflexivity|].
  apply (get_report_lines_keeps_changed (Example.reporter true)).
  vm_compute; reflexivity.
Defined.

(** C1, as it is stated, fails: with [show_source] set, the row of a file
    whose three scalar deltas are zero and whose missed line moved is in the
    report. *)
Lemma scalar_filter_counterexample :
  ~ (forall name row lines,
       In name (class_files (DeltaReporter.differ (Example.churn_reporter true))) ->
       DeltaReporter.get_class_row (Example.churn_reporter true) name = Ok row ->
       DeltaReporter.get_report_lines (Example.churn_reporter true) = Ok lines ->
       (In row (removelast lines) <->
        total_statements row <> 0
        \/ total_misses row <> 0
        \/ (forall s, line_rate row <> S754_zero s))).
Proof.
  intros Hclaim.
  specialize (Hclaim "a.py"
    (ClassRowMissed "a.py" 0 0 (S754_zero false) [(3, false); (5, true)])
    [ClassRowMissed "a.py" 0 0 (S754_zero false) [(3, false); (5, true)];
     ClassRowMissed "TOTAL" 0 0 (S754_zero false) []]).
  assert (Hkept : In (ClassRowMissed "a.py" 0 0 (S754_zero false)
                        [(3, false); (5, true)])
                    (removelast
                       [ClassRowMissed "a.py" 0 0 (S754_zero false)
                          [(3, false); (5, true)];
                        ClassRowMissed "TOTAL" 0 0 (S754_zero false) []]))
    by (cbn; auto).
  apply Hclaim in Hkept; [| vm_compute; auto | vm_compute; reflexivity
                          | vm_compute; reflexivity].
  cbn in Hkept. destruct Hkept as [H|[H|H]]; [congruence | congruence |].
  now apply (H false).
Qed.

(** C2: the report ends with one totals row, after the rows of class files:
    its name is [TOTAL], its three scalars are the deltas of the whole
    snapshots, and its missed lines, when it has the field, are empty. *)
Theorem get_report_lines_footer (self : DeltaReporter.t)
  (Hanswers :
     answers (DeltaReporter.differ self) (DeltaReporter.show_source self)
     = true) :
  exists body s m r,
    diff_total_statements (DeltaReporter.differ self) None = Ok s
    /\ diff_total_misses (DeltaReporter.differ self) None = Ok m
    /\ diff_line_rate (DeltaReporter.differ self) None = Ok r
    /\ DeltaReporter.get_report_lines self =
       Ok (body ++ [if DeltaReporter.show_source_truthy self
                    then ClassRowMissed "TOTAL" s m r []
                    else ClassRow "TOTAL" s m r])
    /\ Forall
         (fun row =>
            exists name,
              In name (class_files (DeltaReporter.differ self))
              /\ DeltaReporter.get_class_row self name = Ok row)
         body.
Proof.
  destruct (get_report_lines_returns self Hanswers)
    as (rows & footer & Hrows & Hfooter & Hlines).
  destruct (footer_returns self Hanswers) as (s & m & r & Hs & Hm & Hr & Hrow).
  rewrite Hrow in Hfooter. injection Hfooter as <-.
  exists (List.filter any_tail rows), s, m, r.
  repeat (split; [assumption|]).
  apply for_each_pointwise in Hrows.
  apply List.Forall_forall. intros row Hin. apply filter_In in Hin as [Hin _].
  destruct (Forall2_In_r _ _ _ _ Hrows Hin) as (name & Hname & Hrow'). eauto.
Qed.

Lemma get_report_lines_footer_witness :
  answers (DeltaReporter.differ (Example.reporter true))
    (DeltaReporter.show_source (Example.reporter true)) = true
  /\ exists body s m r,
      diff_total_statements (DeltaReporter.differ (Example.reporter true)) None
      = Ok s
      /\ diff_total_misses (DeltaReporter.differ (Example.reporter true)) None
         = Ok m
      /\ diff_line_rate (DeltaReporter.differ (Example.reporter true)) None
         = Ok r
      /\ DeltaReporter.get_report_lines (Example.reporter true) =
         Ok (body ++ [if DeltaReporter.show_source_truthy
                           (Example.reporter true)
                      then ClassRowMissed "TOTAL" s m r []
                      else ClassRow "TOTAL" s m r])
      /\ Forall
           (fun row =>
              exists name,
                In name (class_files (DeltaReporter.differ (Example.reporter true)))
                /\ DeltaReporter.get_class_row (Example.reporter true) name
                   = Ok row)
           body.
Proof.
  split; [vm_compute; reflexivity|].
  apply (get_report_lines_footer (Example.reporter true)).
  vm_compute; reflexivity.
Defined.

(** C3: the rows before the footer are the rows of [class_files()], in its
    order, without those that the filter drops; the footer comes last. *)
Theorem get_report_lines_order (self : DeltaReporter.t)
  (Hanswers :
     answers (DeltaReporter.differ self) (DeltaReporter.show_source self)
     = true) :
  exists rows footer,
    Forall2 (fun name row => DeltaReporter.get_class_row self name = Ok row)
      (class_files (DeltaReporter.differ self)) rows
    /\ DeltaReporter.get_footer_row self = Ok footer
    /\ DeltaReporter.get_report_lines self =
       Ok (List.filter any_tail rows ++ [footer])
    /\ map class_filename (List.filter any_tail rows)
       `sublist_of` class_files (DeltaReporter.differ self).
Proof.
  destruct (get_report_lines_returns self Hanswers)
    as (rows & footer & Hrows & Hfooter & Hlines).
  exists rows, footer. apply for_each_pointwise in Hrows.
  repeat (split; [assumption|]).
  assert (Hnames : Forall2 (fun name row => class_filename row = name)
                     (class_files (DeltaReporter.differ self)) rows).
  { clear Hlines. induction Hrows as [|name row names rows Hrow _ IH];
      constructor; eauto using get_class_row_name. }
  clear Hrows Hlines. induction Hnames as [|name row names rows Hname _ IH]; cbn.
  - constructor.
  - destruct (any_tail row); cbn.
    + rewrite Hname. now apply sublist_skip.
    + now apply sublist_cons.
Qed.

Lemma get_report_lines_order_witness :
  answers (DeltaReporter.differ (Example.reporter false))
    (DeltaReporter.show_source (Example.reporter false)) = true
  /\ exists rows footer,
      Forall2
        (fun name row =>
           DeltaReporter.get_class_row (Example.reporter false) name = Ok row)
        (class_files (DeltaReporter.differ (Example.reporter false))) rows
      /\ DeltaReporter.get_footer_row (Example.reporter false) = Ok footer
      /\ DeltaReporter.get_report_lines (Example.reporter false) =
         Ok (List.filter any_tail rows ++ [footer])
      /\ map class_filename (List.filter any_tail rows)
         `sublist_of` class_files (DeltaReporter.differ (Example.reporter false)).
Proof.
  split; [vm_compute; reflexivity|].
  apply (get_report_lines_order (Example.reporter false)).
  vm_compute; reflexivity.
Defined.

Lemma is_True_truthy (v : Py.value) :
  Py.is_True v = true -> Py.truthy v = true.
Proof. destruct v as [|[|]|z|s]; cbn; congruence. Qed.

(** The rows of the class files have the shape that the test
    [self.show_source is True] selects, the footer the shape that the truth
    value of [self.show_source] selects; with the first test true, every
    row has its missed lines. *)
Lemma report_lines_shape (self : DeltaReporter.t)
  (Hanswers :
     answers (DeltaReporter.differ self) (DeltaReporter.show_source self)
     = true) :
  exists rows footer,
    DeltaReporter.get_report_lines self = Ok (rows ++ [footer])
    /\ Forall
         (fun row =>
            row_len row = (if DeltaReporter.show_source self then 5 else 4)%nat
            /\ is_ok (missed_lines row) = DeltaReporter.show_source self)
         rows
    /\ row_len footer
       = (if DeltaReporter.show_source_truthy self then 5 else 4)%nat
    /\ is_ok (missed_lines footer) = DeltaReporter.show_source_truthy self
    /\ Forall
         (fun row =>
            DeltaReporter.show_source self = true ->
            is_ok (missed_lines row) = true)
         (rows ++ [footer]).
Proof.
  destruct (get_report_lines_returns self Hanswers)
    as (rows & footer & Hrows & Hfooter & Hlines).
  assert (Hclass : Forall
            (fun row =>
               row_len row
               = (if DeltaReporter.show_source self then 5 else 4)%nat
               /\ is_ok (missed_lines row) = DeltaReporter.show_source self)
            (List.filter any_tail rows)).
  { apply for_each_pointwise in Hrows.
    apply List.Forall_forall. intros row Hin. apply filter_In in Hin as [Hin _].
    destruct (Forall2_In_r _ _ _ _ Hrows Hin) as (name & Hname & Hrow).
    destruct (class_row_returns self Hanswers name Hname)
      as (s & m & r & _ & _ & _ & Hshape).
    destruct (DeltaReporter.show_source self);
      [destruct Hshape as (ml & _ & Hshape)|];
      rewrite Hrow in Hshape; injection Hshape as ->; now cbn. }
  assert (Hfoot : row_len footer
                  = (if DeltaReporter.show_source_truthy self then 5 else 4)%nat
                  /\ is_ok (missed_lines footer)
                     = DeltaReporter.show_source_truthy self).
  { destruct (footer_returns self Hanswers) as (s & m & r & _ & _ & _ & Hrow).
    rewrite Hrow in Hfooter. injection Hfooter as <-.
    now destruct (DeltaReporter.show_source_truthy self). }
  exists (List.filter any_tail rows), footer.
  split; [exact Hlines|]. split; [exact Hclass|].
  split; [apply Hfoot|]. split; [apply Hfoot|].
  apply Forall_app. split.
  - eapply List.Forall_impl; [|exact Hclass]. cbn beta.
    intros row [_ Hml] Hshow. now rewrite Hml.
  - constructor; [|constructor]. intros Hshow. destruct Hfoot as [_ ->].
    now apply is_True_truthy.
Qed.

(** C10 fails on the code for a flag that is true without being [True]: with
    [show_source=1] the rows of the class files have four fields, as
    [get_class_row] tests [self.show_source is True], and the footer has
    five, as [get_footer_row] tests the truth value of [self.show_source]. *)
Theorem get_report_lines_mixed_shapes :
  exists rows footer,
    DeltaReporter.get_report_lines
      (DeltaReporter.Build_t
         (Example.engine Example.old_snapshot Example.new_snapshot)
         (Py.PyInt 1))
    = Ok (rows ++ [footer])
    /\ map class_filename rows = ["c.py"; "a.py"]
    /\ Forall (fun row => row_len row = 4%nat) rows
    /\ class_filename footer = "TOTAL"
    /\ row_len footer = 5%nat.
Proof.
  eexists [_; _], _. split; [vm_compute; reflexivity|].
  cbn. repeat split; repeat constructor.
Qed.

(** ** Formatting *)

Lemma digits_of_pos_nonempty (p : positive) : Py.digits_of_pos p <> "".
Proof.
  unfold Py.digits_of_pos. intros H.
  pose proof (NilEmpty.usu (Pos.to_uint p)) as Hround.
  rewrite H in Hround. cbn in Hround. injection Hround as Hnil.
  now apply (Unsigned.to_uint_nonnil p).
Qed.

Lemma digits_of_pos_not_zero (p : positive) : Py.digits_of_pos p <> "0".
Proof.
  unfold Py.digits_of_pos. intros H.
  pose proof (NilEmpty.usu (Pos.to_uint p)) as Hround.
  rewrite H in Hround. cbn in Hround. injection Hround as Hzero.
  now apply (Unsigned.to_uint_nonzero p).
Qed.

(** String concatenation does not unfold under [simpl]; these equations
    replace it. *)
Lemma append_nil (b : string) : "" +:+ b = b.
Proof. reflexivity. Qed.

Lemma append_cons (c : ascii) (a b : string) :
  String c a +:+ b = String c (a +:+ b).
Proof. reflexivity. Qed.

Ltac push_append :=
  repeat (rewrite append_cons in * || rewrite append_nil in * ).

(** A nonzero [int] under ['%+d']: its sign, then its digits. *)
Lemma fmt_plus_d_signed (z : Z) :
  z <> 0 ->
  exists rest,
    Py.fmt_plus_d z = String (if Z.ltb 0 z then "+" else "-")%char rest
    /\ rest <> "" /\ rest <> "0".
Proof.
  destruct z as [|p|p]; [congruence| |]; intros _; cbn; push_append;
    exists (Py.digits_of_pos p);
    auto using digits_of_pos_nonempty, digits_of_pos_not_zero.
Qed.

(** ** Numerals *)

Lemma append_length (a b : string) :
  String.length (a +:+ b) = (String.length a + String.length b)%nat.
Proof.
  induction a as [|c a IH]; [reflexivity|].
  rewrite append_cons. cbn [String.length]. now rewrite IH.
Qed.

Lemma append_assoc (a b c : string) : (a +:+ b) +:+ c = a +:+ (b +:+ c).
Proof.
  induction a as [|x a IH]; [reflexivity|].
  rewrite !append_cons. now rewrite IH.
Qed.

Lemma length_zero_empty (a : string) : String.length a = 0%nat -> a = "".
Proof. now destruct a. Qed.

(** Evaluate [digit_value] at the character in the goal. *)
Ltac known_digit :=
  match goal with
  | |- context [digit_value ?c] =>
      let v := eval vm_compute in (digit_value c) in
      change (digit_value c) with v; cbv beta iota
  end.

Lemma value_from_uint (d : Decimal.uint) :
  forall acc : positive,
    decimal_value_from (Zpos acc) (NilEmpty.string_of_uint d)
    = Some (Zpos (Pos.of_uint_acc d acc)).
Proof.
  induction d; intros acc;
    cbn [NilEmpty.string_of_uint decimal_value_from Pos.of_uint_acc];
    try reflexivity; known_digit; rewrite <- IHd; f_equal; lia.
Qed.

Lemma value_of_uint (d : Decimal.uint) :
  decimal_value_from 0 (NilEmpty.string_of_uint d)
  = Some (Z.of_N (Pos.of_uint d)).
Proof.
  induction d;
    cbn [NilEmpty.string_of_uint decimal_value_from Pos.of_uint];
    try reflexivity; known_digit;
    try (change (10 * 0 + 0) with 0; exact IHd);
    apply (value_from_uint d).
Qed.

Lemma leading_digit (d : Decimal.uint) (rest : string) :
  NilEmpty.string_of_uint d = String "0" rest ->
  exists d', d = Decimal.D0 d'.
Proof. destruct d; cbn; intros H; try discriminate; eauto. Qed.

Lemma digits_of_pos_numeral (p : positive) :
  decimal_of (Zpos p) (Py.digits_of_pos p).
Proof.
  unfold decimal_of, Py.digits_of_pos. split.
  - pose proof (value_of_uint (Pos.to_uint p)) as Hvalue.
    rewrite DecimalPos.Unsigned.of_to in Hvalue.
    pose proof (digits_of_pos_nonempty p) as Hne. unfold Py.digits_of_pos in Hne.
    destruct (NilEmpty.string_of_uint (Pos.to_uint p)); [congruence|].
    exact Hvalue.
  - intros rest Hzero. exfalso.
    apply leading_digit in Hzero as [d' Hd'].
    pose proof (DecimalPos.Unsigned.to_of (Pos.to_uint p)) as Hnorm.
    rewrite DecimalPos.Unsigned.of_to in Hnorm. cbn [N.to_uint] in Hnorm.
    rewrite Hd' in Hnorm. rewrite DecimalFacts.unorm_D0 in Hnorm.
    unfold Decimal.unorm in Hnorm.
    destruct (Decimal.nzhead d') eqn:Hhead; try discriminate Hnorm.
    + injection Hnorm as ->.
      now apply (DecimalPos.Unsigned.to_uint_nonzero p).
    + now apply DecimalFacts.nzhead_nonzero in Hhead.
Qed.

Lemma digits_of_N_numeral (n : N) : decimal_of (Z.of_N n) (Py.digits_of_N n).
Proof.
  destruct n as [|p].
  - split; [reflexivity|]. cbn. intros rest H. now injection H as <-.
  - unfold Py.digits_of_N, NilZero.string_of_uint. cbn [N.to_uint Z.of_N].
    destruct (Pos.to_uint p) eqn:Hu;
      [now apply DecimalPos.Unsigned.to_uint_nonnil in Hu|..];
      rewrite <- Hu; apply digits_of_pos_numeral.
Qed.

Lemma two_digits_numeral (n : Z) :
  0 <= n < 100 ->
  String.length (Py.two_digits n) = 2%nat
  /\ decimal_value (Py.two_digits n) = Some n.
Proof.
  intros Hn.
  assert (Hall : forallb
            (fun k =>
               Nat.eqb (String.length (Py.two_digits (Z.of_nat k))) 2
               && match decimal_value (Py.two_digits (Z.of_nat k)) with
                  | Some v => Z.eqb v (Z.of_nat k)
                  | None => false
                  end)
            (seq 0 100) = true) by (vm_compute; reflexivity).
  rewrite forallb_forall in Hall.
  specialize (Hall (Z.to_nat n)). rewrite Z2Nat.id in Hall by lia.
  apply andb_prop in Hall as [Hlen Hval]; [|apply in_seq; lia].
  apply Nat.eqb_eq in Hlen. split; [exact Hlen|].
  destruct (decimal_value (Py.two_digits n)); [|discriminate].
  apply Z.eqb_eq in Hval. now subst.
Qed.

(** ** Rounding *)

Lemma round_half_even_nearest (num den : Z) :
  0 < den -> nearest_even num den (Py.round_half_even num den).
Proof.
  intros Hden. unfold nearest_even, Py.round_half_even.
  pose proof (Z.div_mod num den ltac:(lia)) as Hdm.
  pose proof (Z.mod_pos_bound num den Hden) as Hr.
  set (q := num / den) in *. set (r := num mod den) in *.
  destruct (Z.compare_spec (2 * r) den) as [Heq|Hlt|Hgt].
  - destruct (Z.even q) eqn:Heven.
    + split; [lia | auto].
    + split; [lia|]. intros _.
      rewrite Z.add_1_r, Z.even_succ, <- Z.negb_even, Heven. reflexivity.
  - split; lia.
  - split; lia.
Qed.

Lemma round_half_even_nonneg (num den : Z) :
  0 <= num -> 0 < den -> 0 <= Py.round_half_even num den.
Proof.
  intros Hnum Hden. unfold Py.round_half_even.
  pose proof (Z.div_pos num den Hnum Hden).
  destruct (Z.compare (2 * (num mod den)) den); [destruct (Z.even _)| |]; lia.
Qed.

Lemma hundredths_nearest (m : positive) (e : Z) :
  nearest_even (100 * Zpos m * 2 ^ Z.max e 0) (2 ^ Z.max (- e) 0)
    (Py.hundredths m e)
  /\ 0 <= Py.hundredths m e.
Proof.
  destruct e as [|k|k]; cbn [Py.hundredths].
  - change (Z.max 0 0) with 0. change (Z.max (- 0) 0) with 0.
    change (2 ^ 0) with 1. unfold nearest_even. split; [split|]; lia.
  - rewrite Z.max_l by lia. rewrite Z.max_r by lia.
    change (2 ^ 0) with 1. pose proof (Z.pow_pos_nonneg 2 (Zpos k)).
    unfold nearest_even. split; [split|]; nia.
  - rewrite Z.max_r by lia. rewrite Z.max_l by lia.
    change (- Zneg k) with (Zpos k). change (2 ^ 0) with 1.
    assert (Hden : 0 < 2 ^ Zpos k) by (apply Z.pow_pos_nonneg; lia).
    replace (100 * Zpos m * 1) with (Zpos m * 100) by lia.
    split; [now apply round_half_even_nearest|].
    apply round_half_even_nonneg; lia.
Qed.

(** ** The signed formats denote the number *)

Lemma fmt_plus_d_denotes (z : Z) : z <> 0 -> signed_int z (Py.fmt_plus_d z).
Proof.
  destruct z as [|p|p]; [congruence| |]; intros _;
    exists (Py.digits_of_pos p); (split; [reflexivity|]);
    apply digits_of_pos_numeral.
Qed.

Lemma fmt_plus_pct_denotes (x : Py.float) :
  signed_percent (SFmul 53 1024 x (S754_finite false 7036874417766400 (-46)))
    (Py.fmt_plus_pct x).
Proof.
  unfold Py.fmt_plus_pct.
  change (Py.fmul x Py.f100)
    with (SFmul 53 1024 x (S754_finite false 7036874417766400 (-46))).
  destruct (SFmul 53 1024 x (S754_finite false 7036874417766400 (-46)))
    as [s|s| |s m e]; cbn [signed_percent].
  - now destruct s.
  - now destruct s.
  - reflexivity.
  - destruct (hundredths_nearest m e) as [Hnear Hpos].
    pose proof (Z.div_mod (Py.hundredths m e) 100 ltac:(lia)) as Hdm.
    pose proof (Z.mod_pos_bound (Py.hundredths m e) 100 ltac:(lia)) as Hmod.
    pose proof (Z.div_pos (Py.hundredths m e) 100 Hpos ltac:(lia)) as Hdiv.
    destruct (two_digits_numeral _ Hmod) as [Hlen Hfrac].
    exists (Py.digits_of_N (Z.to_N (Py.hundredths m e / 100))),
      (Py.two_digits (Py.hundredths m e mod 100)),
      (Py.hundredths m e / 100), (Py.hundredths m e mod 100).
    split; [|split; [|split; [|split]]].
    + unfold Py.fmt_f2. destruct s; cbn [Py.sign_of];
        rewrite !append_assoc; reflexivity.
    + rewrite <- (Z2N.id (Py.hundredths m e / 100)) at 1 by exact Hdiv.
      apply digits_of_N_numeral.
    + exact Hlen.
    + exact Hfrac.
    + rewrite <- Hdm. exact Hnear.
Qed.

(** A signed number is neither the bare dash nor ["+0"]. *)
Lemma signed_int_length (z : Z) (cell : string) :
  z <> 0 -> signed_int z cell ->
  (2 <= String.length cell)%nat /\ cell <> "+0".
Proof.
  intros Hz (digits & -> & Hvalue & _). split.
  - destruct digits; [discriminate Hvalue | cbn; lia].
  - intros H. injection H as _ ->. cbn in Hvalue. injection Hvalue as Hzero.
    lia.
Qed.

Lemma signed_percent_length (x : Py.float) (cell : string) :
  signed_percent x cell -> (3 <= String.length cell)%nat.
Proof.
  destruct x as [s|s| |s m e]; cbn [signed_percent].
  - intros ->. cbn. lia.
  - intros ->. cbn. lia.
  - intros ->. cbn. lia.
  - intros (whole & frac & n & f & -> & [Hwhole _] & Hlen & _).
    cbn [String.length]. rewrite !append_length, Hlen. cbn. lia.
Qed.

(** ** [format_row] of the delta reporters *)

Section DeltaFormatRow.
Variables green red : string -> string.
Variable self : TextReporterDelta.t.

Lemma format_missed_line_marker (lno : Z) (is_new : bool) :
  TextReporterDelta.format_missed_line (lno, is_new) =
  String (if is_new then "+" else "-")%char (Py.fmt_d lno).
Proof. now destruct is_new. Qed.

Lemma colorize_missed_lines (entries : list (Z * bool)) :
  for_each (TextReporterDelta.colorize green red)
    (map TextReporterDelta.format_missed_line entries) =
  Ok (map (fun '((lno, is_new) : Z * bool) =>
             (if is_new then red else green)
               (String (if is_new then "+" else "-")%char (Py.fmt_d lno)))
        entries).
Proof.
  induction entries as [|[lno is_new] entries IH]; [reflexivity|].
  cbn [map for_each]. rewrite IH, format_missed_line_marker.
  now destruct is_new.
Qed.

Lemma colorize_total_misses (misses : Z) :
  (if TextReporterDelta.color self
      && negb (String.eqb
                 (if Py.int_truthy misses then Py.fmt_plus_d misses else "-")
                 "-")
   then TextReporterDelta.colorize green red
          (if Py.int_truthy misses then Py.fmt_plus_d misses else "-")
   else Ok (if Py.int_truthy misses then Py.fmt_plus_d misses else "-")) =
  Ok (if TextReporterDelta.color self && negb (Z.eqb misses 0)
      then (if Z.ltb 0 misses then red else green)
             (if Py.int_truthy misses then Py.fmt_plus_d misses else "-")
      else (if Py.int_truthy misses then Py.fmt_plus_d misses else "-")).
Proof.
  unfold Py.int_truthy. destruct (Z.eqb misses 0) eqn:Hz; cbn [negb].
  - change ("-" =? "-")%string with true. cbn [negb].
    now rewrite andb_false_r.
  - apply Z.eqb_neq in Hz.
    destruct (fmt_plus_d_signed misses Hz) as (rest & Heq & Hne & _).
    rewrite Heq.
    assert (Hdash : String.eqb
              (String (if Z.ltb 0 misses then "+" else "-")%char rest) "-"
            = false).
    { apply String.eqb_neq. intros H. injection H as _ H. congruence. }
    rewrite Hdash. cbn [negb]. rewrite andb_true_r.
    destruct (TextReporterDelta.color self); [|reflexivity].
    unfold TextReporterDelta.colorize. cbn.
    now destruct (Z.ltb 0 misses).
Qed.

(** The cells of a text row, when the row has the missed lines that
    [show_source] asks for. *)
Lemma text_format_row_cells (row : DeltaRow) :
  (TextReporterDelta.show_source self = true ->
   is_ok (missed_lines row) = true) ->
  TextReporterDelta.format_row green red self row =
  Ok ([class_filename row;
       if Py.int_truthy (total_statements row)
       then Py.fmt_plus_d (total_statements row) else "-";
       if TextReporterDelta.color self && negb (Z.eqb (total_misses row) 0)
       then (if Z.ltb 0 (total_misses row) then red else green)
              (if Py.int_truthy (total_misses row)
               then Py.fmt_plus_d (total_misses row) else "-")
       else (if Py.int_truthy (total_misses row)
             then Py.fmt_plus_d (total_misses row) else "-");
       if Py.float_truthy (line_rate row)
       then Py.fmt_plus_pct (line_rate row) else "-"]
      ++ (if TextReporterDelta.show_source self then
            match missed_lines row with
            | Ok entries =>
                [Py.join ", "
                   (map (fun '((lno, is_new) : Z * bool) =>
                           if TextReporterDelta.color self
                           then (if is_new then red else green)
                                  (String (if is_new then "+" else "-")%char
                                     (Py.fmt_d lno))
                           else String (if is_new then "+" else "-")%char
                                  (Py.fmt_d lno))
                      entries)]
            | Raise _ => []
            end
          else [])).
Proof.
  intros Hshape. unfold TextReporterDelta.format_row.
  rewrite colorize_total_misses. cbn [bind].
  destruct (TextReporterDelta.show_source self); [|reflexivity].
  destruct (missed_lines row) as [entries|e]; [|now discriminate Hshape].
  cbn [bind]. destruct (TextReporterDelta.color self).
  - rewrite colorize_missed_lines. reflexivity.
  - cbn [bind]. do 4 f_equal. apply map_ext. intros [lno is_new].
    apply format_missed_line_marker.
Qed.

Lemma html_format_row_fields (row : DeltaRow) :
  (TextReporterDelta.show_source self = true ->
   is_ok (missed_lines row) = true) ->
  exists out,
    HtmlReporterDelta.format_row self row = Ok out
    /\ class_filename out = class_filename row
    /\ total_statements out =
       (if Py.int_truthy (total_statements row)
        then Py.fmt_plus_d (total_statements row) else "-")
    /\ total_misses out =
       (if Py.int_truthy (total_misses row)
        then Py.fmt_plus_d (total_misses row) else "-")
    /\ line_rate out =
       (if Py.float_truthy (line_rate row)
        then Py.fmt_plus_pct (line_rate row) else "-")
    /\ (TextReporterDelta.show_source self = true ->
        exists entries,
          missed_lines row = Ok entries
          /\ missed_lines out =
             Ok (map (fun '((lno, is_new) : Z * bool) =>
                        String (if is_new then "+" else "-")%char
                          (Py.fmt_d lno))
                   entries))
    /\ is_ok (missed_lines out) = TextReporterDelta.show_source self.
Proof.
  intros Hshape. unfold HtmlReporterDelta.format_row.
  destruct (TextReporterDelta.show_source self).
  - destruct (missed_lines row) as [entries|e];
      [|now discriminate Hshape].
    cbn [bind]. eexists. split; [reflexivity|]. cbn.
    repeat (split; [reflexivity|]). split; [|reflexivity].
    intros _. exists entries. split; [reflexivity|]. f_equal.
    apply map_ext. intros [lno is_new]. apply format_missed_line_marker.
  - eexists. split; [reflexivity|]. cbn.
    repeat (split; [reflexivity|]). split; [discriminate | reflexivity].
Qed.

End DeltaFormatRow.

(** C5: with [show_source] set, each [(line_number, is_new)] of a row is
    rendered by both [format_row]s as the line number after a [+] when
    [is_new] is true and after a [-] when it is false; the text reporter
    joins the renderings with [", "], each in red ([+]) or green ([-]) when
    [color] is set. *)
Theorem format_row_markers (green red : string -> string)
  (self : TextReporterDelta.t) (row : DeltaRow) (entries : list (Z * bool))
  (Hshow : TextReporterDelta.show_source self = true)
  (Hmissed : missed_lines row = Ok entries) :
  (exists out,
     HtmlReporterDelta.format_row self row = Ok out
     /\ missed_lines out =
        Ok (map (fun '((lno, is_new) : Z * bool) =>
                   String (if is_new then "+" else "-")%char (Py.fmt_d lno))
              entries))
  /\ (exists cells,
        TextReporterDelta.format_row green red self row = Ok cells
        /\ nth_error cells 4 =
           Some (Py.join ", "
                   (map (fun '((lno, is_new) : Z * bool) =>
                           if TextReporterDelta.color self
                           then (if is_new then red else green)
                                  (String (if is_new then "+" else "-")%char
                                     (Py.fmt_d lno))
                           else String (if is_new then "+" else "-")%char
                                  (Py.fmt_d lno))
                      entries))).
Proof.
  assert (Hshape : TextReporterDelta.show_source self = true ->
                   is_ok (missed_lines row) = true)
    by (intros _; now rewrite Hmissed).
  split.
  - destruct (html_format_row_fields self row Hshape)
      as (out & Hout & _ & _ & _ & _ & Hlines & _).
    exists out. split; [exact Hout|].
    destruct (Hlines Hshow) as (entries' & Hentries & Hrendered).
    rewrite Hmissed in Hentries. injection Hentries as <-. exact Hrendered.
  - eexists. split; [apply (text_format_row_cells green red self row Hshape)|].
    rewrite Hshow, Hmissed. reflexivity.
Qed.

Lemma format_row_markers_witness :
  let self := TextReporterDelta.Build_t (Example.reporter true) true in
  let row : DeltaRow :=
    ClassRowMissed "a.py" 0 (-1) (Example.tenths 1)
      [(3, false); (5, true); (9, false)] in
  TextReporterDelta.show_source self = true
  /\ HtmlReporterDelta.format_row self row =
     Ok (ClassRowMissed "a.py" "-" "-1" "+10.00%" ["-3"; "+5"; "-9"])
  /\ TextReporterDelta.format_row Example.green Example.red self row =
     Ok ["a.py"; "-"; "<g>-1</g>"; "+10.00%";
         "<g>-3</g>, <r>+5</r>, <g>-9</g>"].
Proof.
  intros self row.
  destruct (format_row_markers Example.green Example.red self row
              [(3, false); (5, true); (9, false)] eq_refl eq_refl)
    as [(out & Hout & _) (cells & Hcells & _)].
  split; [reflexivity|]. split.
  - rewrite Hout. vm_compute in Hout. now injection Hout as <-.
  - rewrite Hcells. vm_compute in Hcells. now injection Hcells as <-.
Defined.

Lemma append_nil_r (a : string) : a +:+ "" = a.
Proof.
  induction a as [|c a IH]; [reflexivity|]. now rewrite append_cons, IH.
Qed.

Lemma int_delta_cell (z : Z) :
  delta_cell (z = 0) (signed_int z)
    (if Py.int_truthy z then Py.fmt_plus_d z else "-").
Proof.
  unfold delta_cell. destruct (Py.int_truthy z) eqn:Ht.
  - apply int_truthy_nonzero in Ht.
    pose proof (fmt_plus_d_denotes z Ht) as Hsigned.
    destruct (signed_int_length z _ Ht Hsigned) as [Hlen Hplus].
    repeat split; try tauto.
    intros H. rewrite H in Hlen. cbn in Hlen. lia.
  - assert (z = 0).
    { destruct (Z.eq_dec z 0) as [|Hne]; [assumption|].
      apply int_truthy_nonzero in Hne. congruence. }
    repeat split; try tauto; discriminate.
Qed.

Lemma float_delta_cell (x : Py.float) :
  delta_cell (exists s, x = S754_zero s)
    (signed_percent
       (SFmul 53 1024 x (S754_finite false 7036874417766400 (-46))))
    (if Py.float_truthy x then Py.fmt_plus_pct x else "-").
Proof.
  unfold delta_cell. destruct (Py.float_truthy x) eqn:Ht.
  - pose proof (proj1 (float_truthy_nonzero x) Ht) as Hnz.
    pose proof (fmt_plus_pct_denotes x) as Hsigned.
    pose proof (signed_percent_length _ _ Hsigned) as Hlen.
    repeat split.
    + intros [s Hs]. now apply Hnz in Hs.
    + intros _. exact Hsigned.
    + intros H. rewrite H in Hlen. cbn in Hlen. lia.
    + intros [s Hs]. now apply Hnz in Hs.
    + intros H. rewrite H in Hlen. cbn in Hlen. lia.
  - assert (Hz : exists s, x = S754_zero s).
    { destruct x as [s|s| |s m e]; try destruct s; try discriminate; eauto. }
    repeat split; try tauto; discriminate.
Qed.

(** A colour around a signed number leaves neither the bare dash nor
    ["+0"]. *)
Lemma wrapped_signed_int (colour : string -> string) (z : Z) (signed : string) :
  wraps colour -> z <> 0 -> signed_int z signed ->
  (exists before after, colour signed = before +:+ signed +:+ after)
  /\ colour signed <> "-" /\ colour signed <> "+0".
Proof.
  intros Hwraps Hz Hsigned.
  destruct (signed_int_length z signed Hz Hsigned) as [Hlen Hplus].
  destruct (Hwraps signed) as (before & after & Heq).
  split; [eauto|].
  assert (Hlength : String.length (colour signed)
                    = (String.length before + String.length signed
                       + String.length after)%nat)
    by (rewrite Heq, !append_length; lia).
  split; intros H; rewrite H in Hlength; cbn in Hlength.
  - lia.
  - assert (before = "") by (apply length_zero_empty; lia).
    assert (after = "") by (apply length_zero_empty; lia).
    subst before after. rewrite append_nil, append_nil_r in Heq.
    congruence.
Qed.

(** C9: both [format_row]s show each of the three scalar deltas as the bare
    ["-"] exactly when it is zero, a float zero of either sign too, and with
    an explicit sign when it is not: a count as [+] or [-] and the numeral
    of its magnitude; the line rate as the sign, whole part and two
    decimals of the float product [line_rate * 100], rounded to the nearest
    hundredth, and a percent sign.  No cell is ["+0"].  With [color] set the
    text reporter puts the colour of [red] (an increase) or [green] around a
    nonzero [total_misses]; for colour functions that only add text before
    and after, the cell is still neither ["-"] nor ["+0"]. *)
Theorem format_row_renders_deltas (green red : string -> string)
  (self : TextReporterDelta.t) (row : DeltaRow)
  (Hgreen : wraps green) (Hred : wraps red)
  (Hshape : TextReporterDelta.show_source self = true ->
            is_ok (missed_lines row) = true) :
  exists cells out misses_cell,
    TextReporterDelta.format_row green red self row = Ok cells
    /\ HtmlReporterDelta.format_row self row = Ok out
    /\ delta_cell (total_statements row = 0)
         (signed_int (total_statements row)) (total_statements out)
    /\ delta_cell (total_misses row = 0)
         (signed_int (total_misses row)) (total_misses out)
    /\ delta_cell (exists s, line_rate row = S754_zero s)
         (signed_percent
            (SFmul 53 1024 (line_rate row)
               (S754_finite false 7036874417766400 (-46))))
         (line_rate out)
    /\ Zpos 7036874417766400 = 100 * 2 ^ 46
    /\ nth_error cells 1 = Some (total_statements out)
    /\ nth_error cells 3 = Some (line_rate out)
    /\ nth_error cells 2 = Some misses_cell
    /\ delta_cell (total_misses row = 0)
         (fun cell =>
            exists before after signed,
              cell = before +:+ signed +:+ after
              /\ signed_int (total_misses row) signed)
         misses_cell
    /\ misses_cell =
       (if TextReporterDelta.color self && negb (Z.eqb (total_misses row) 0)
        then (if Z.ltb 0 (total_misses row) then red else green)
               (total_misses out)
        else total_misses out).
Proof.
  destruct (html_format_row_fields self row Hshape)
    as (out & Hout & _ & Hs & Hm & Hr & _).
  pose proof (int_delta_cell (total_statements row)) as Hcs.
  pose proof (int_delta_cell (total_misses row)) as Hcm.
  pose proof (float_delta_cell (line_rate row)) as Hcr.
  rewrite <- Hs in Hcs. rewrite <- Hm in Hcm. rewrite <- Hr in Hcr.
  eexists _, out, _.
  split; [apply (text_format_row_cells green red self row Hshape)|].
  split; [exact Hout|].
  split; [exact Hcs|]. split; [exact Hcm|]. split; [exact Hcr|].
  split; [reflexivity|].
  split; [cbn; now rewrite Hs|]. split; [cbn; now rewrite Hr|].
  split; [reflexivity|].
  rewrite <- Hm. split; [|reflexivity].
  destruct Hcm as (Hzero & Hsigned & Hdash & Hplus).
  destruct (Z.eqb (total_misses row) 0) eqn:Hz.
  - apply Z.eqb_eq in Hz. rewrite andb_false_r.
    unfold delta_cell. repeat split; try tauto.
  - apply Z.eqb_neq in Hz. cbn [negb]. rewrite andb_true_r.
    specialize (Hsigned Hz).
    destruct (TextReporterDelta.color self).
    + assert (Hwraps : wraps (if Z.ltb 0 (total_misses row) then red else green))
        by (destruct (Z.ltb 0 (total_misses row)); assumption).
      destruct (wrapped_signed_int _ _ _ Hwraps Hz Hsigned)
        as ((before & after & Heq) & Hnd & Hnp).
      unfold delta_cell. repeat split; try tauto.
      intros _. eauto.
    + unfold delta_cell. repeat split; try tauto.
      intros _. exists "", "", (total_misses out).
      now rewrite append_nil, append_nil_r.
Qed.

Lemma format_row_renders_deltas_witness :
  let self := TextReporterDelta.Build_t (Example.reporter true) true in
  let row : DeltaRow :=
    ClassRowMissed "a.py" 0 (-1) (Example.tenths 1)
      [(3, false); (5, true); (9, false)] in
  wraps Example.green /\ wraps Example.red
  /\ (TextReporterDelta.show_source self = true ->
      is_ok (missed_lines row) = true)
  /\ exists cells out,
      TextReporterDelta.format_row Example.green Example.red self row
      = Ok cells
      /\ HtmlReporterDelta.format_row self row = Ok out
      /\ total_statements out = "-"
      /\ total_misses out = "-1"
      /\ line_rate out = "+10.00%"
      /\ signed_int (-1) (total_misses out)
      /\ nth_error cells 2 = Some "<g>-1</g>".
Proof.
  intros self row.
  assert (Hgreen : wraps Example.green)
    by (intros text; exists "<g>", "</g>"; reflexivity).
  assert (Hred : wraps Example.red)
    by (intros text; exists "<r>", "</r>"; reflexivity).
  split; [exact Hgreen|]. split; [exact Hred|]. split; [reflexivity|].
  destruct (format_row_renders_deltas Example.green Example.red self row
              Hgreen Hred (fun _ => eq_refl))
    as (cells & out & cell & Hcells & Hout & _ & Hmisses & _).
  exists cells, out. repeat (split; [assumption|]).
  destruct Hmisses as (_ & Hsigned & _).
  vm_compute in Hcells, Hout.
  injection Hcells as <-. injection Hout as <-.
  repeat split. apply Hsigned. discriminate.
Defined.

(** ** [rangify] and [TextReporter.format_row] *)

Section Rangify.
Import Utils.

(** Two ranges are apart when a number lies between them. *)
Let apart (p q : Z * Z) : Prop := snd p + 1 < fst q.

(** The ranges of a run cover the run so far and the remaining numbers,
    and nothing else. *)
Lemma rangify_run_covers (numbers : list Z) :
  forall start prev,
    start <= prev ->
    Sorted Z.lt (prev :: numbers) ->
    forall k,
      (exists p, In p (rangify_run start prev numbers)
                 /\ fst p <= k <= snd p)
      <-> (start <= k <= prev \/ In k numbers).
Proof.
  induction numbers as [|num numbers IH]; intros start prev Hle Hsorted k.
  - cbn. split.
    + intros (p & [<-|[]] & Hk). now left.
    + intros [Hk|[]]. exists (start, prev). auto.
  - apply Sorted_inv in Hsorted as [Hsorted Hhd].
    apply HdRel_inv in Hhd. cbn [rangify_run].
    destruct (Z.eqb num (prev + 1)) eqn:Hnext.
    + apply Z.eqb_eq in Hnext.
      rewrite (IH start num) by (assumption || lia). cbn [In].
      intuition lia.
    + apply Z.eqb_neq in Hnext. split.
      * intros (p & [<-|Hp] & Hk); [now left|].
        assert (Hex : exists p, In p (rangify_run num num numbers)
                                /\ fst p <= k <= snd p) by eauto.
        apply (IH num num) in Hex; [|lia|assumption].
        right. cbn [In]. destruct Hex as [Hk'|Hk']; [left; lia | now right].
      * intros [Hk|Hk].
        -- exists (start, prev). cbn [In]. auto.
        -- assert (Hk' : num <= k <= num \/ In k numbers)
             by (destruct Hk as [<-|Hk]; [left; lia | now right]).
           apply (IH num num) in Hk'; [|lia|assumption].
           destruct Hk' as (p & Hp & Hpk). exists p. cbn [In]. auto.
Qed.

(** Every range of a run starts at or after the start of the run and is
    not empty. *)
Lemma rangify_run_bounds (numbers : list Z) :
  forall start prev,
    start <= prev ->
    Sorted Z.lt (prev :: numbers) ->
    Forall (fun p => start <= fst p /\ fst p <= snd p)
      (rangify_run start prev numbers).
Proof.
  induction numbers as [|num numbers IH]; intros start prev Hle Hsorted.
  - cbn. repeat constructor; cbn; lia.
  - apply Sorted_inv in Hsorted as [Hsorted Hhd].
    apply HdRel_inv in Hhd. cbn [rangify_run].
    destruct (Z.eqb num (prev + 1)).
    + apply (IH start num); [lia | assumption].
    + constructor; [cbn; lia|].
      eapply List.Forall_impl; [|apply (IH num num); [lia | assumption]].
      cbn. intros p [? ?]. lia.
Qed.

Lemma rangify_run_apart (numbers : list Z) :
  forall start prev,
    start <= prev ->
    Sorted Z.lt (prev :: numbers) ->
    StronglySorted apart (rangify_run start prev numbers).
Proof.
  induction numbers as [|num numbers IH]; intros start prev Hle Hsorted.
  - cbn. repeat constructor.
  - apply Sorted_inv in Hsorted as [Hsorted Hhd].
    apply HdRel_inv in Hhd. cbn [rangify_run].
    destruct (Z.eqb num (prev + 1)) eqn:Hnext.
    + apply (IH start num); [lia | assumption].
    + apply Z.eqb_neq in Hnext. constructor.
      * apply (IH num num); [lia | assumption].
      * eapply List.Forall_impl;
          [|apply (rangify_run_bounds numbers num num); [lia | assumption]].
        unfold apart. cbn. intros p [? ?]. lia.
Qed.

Lemma strongly_sorted_trichotomy {A : Type} (R : A -> A -> Prop)
  (l : list A) (p q : A) :
  StronglySorted R l -> In p l -> In q l -> p = q \/ R p q \/ R q p.
Proof.
  induction 1 as [|x l Hl IH Hx]; cbn; [tauto|].
  rewrite List.Forall_forall in Hx.
  intros [->|Hp] [->|Hq]; auto.
Qed.

Variable number_list : list Z.
Hypothesis Hsorted : Sorted Z.lt number_list.

Lemma rangify_covers (k : Z) :
  (exists p, In p (rangify number_list) /\ fst p <= k <= snd p)
  <-> In k number_list.
Proof.
  destruct number_list as [|num numbers]; cbn [rangify].
  - cbn. split; [intros (p & [] & _) | tauto].
  - rewrite (rangify_run_covers numbers num num) by (assumption || lia).
    cbn [In]. split; intros [H|H]; auto; left; lia.
Qed.

Lemma rangify_bounds :
  Forall (fun p => fst p <= snd p) (rangify number_list).
Proof.
  destruct number_list as [|num numbers]; cbn [rangify]; [constructor|].
  eapply List.Forall_impl;
    [|apply (rangify_run_bounds numbers num num); [lia | assumption]].
  cbn. tauto.
Qed.

Lemma rangify_apart : StronglySorted apart (rangify number_list).
Proof.
  destruct number_list as [|num numbers]; cbn [rangify]; [constructor|].
  apply rangify_run_apart; [lia | assumption].
Qed.

(** Two ranges with a number in common, or with two neighbours, are the
    same range. *)
Lemma rangify_same_range (p q : Z * Z) (n : Z) :
  In p (rangify number_list) -> In q (rangify number_list) ->
  fst p <= n <= snd p -> fst q <= n <= snd q \/ fst q <= n + 1 <= snd q ->
  p = q.
Proof.
  intros Hp Hq Hn Hn'.
  pose proof rangify_bounds as Hb. rewrite List.Forall_forall in Hb.
  pose proof (Hb p Hp). pose proof (Hb q Hq).
  destruct (strongly_sorted_trichotomy apart _ p q rangify_apart Hp Hq)
    as [Heq|[Hpq|Hqp]]; [assumption | |]; unfold apart in *; lia.
Qed.

End Rangify.

Lemma strongly_sorted_weaken {A : Type} (R S : A -> A -> Prop) (l : list A) :
  (forall x y, R x y -> S x y) -> StronglySorted R l -> StronglySorted S l.
Proof.
  intros Himpl. induction 1 as [|x l Hl IH Hx]; constructor; [assumption|].
  eapply List.Forall_impl; [|exact Hx]. auto.
Qed.

(** C4: on an ascending list without duplicates, [rangify] gives ranges in
    ascending order that do not overlap; every number of the list is in
    exactly one range and a range holds numbers of the list only; two
    consecutive numbers are in one range; a number without neighbours is a
    range of its own, with equal ends; an empty list gives no range.
    [TextReporter.format_row] writes a range with equal ends as the number
    and any other as [start-stop], and joins them with [", "]. *)
Theorem rangify_ranges (number_list : list Z)
  (Hsorted : Sorted Z.lt number_list) :
  (forall n,
     In n number_list ->
     exists p,
       In p (Utils.rangify number_list) /\ fst p <= n <= snd p
       /\ forall q,
           In q (Utils.rangify number_list) -> fst q <= n <= snd q -> q = p)
  /\ (forall p k,
        In p (Utils.rangify number_list) -> fst p <= k <= snd p ->
        In k number_list)
  /\ (forall n,
        In n number_list -> In (n + 1) number_list ->
        exists p,
          In p (Utils.rangify number_list) /\ fst p <= n /\ n + 1 <= snd p)
  /\ StronglySorted (fun p q => snd p < fst q) (Utils.rangify number_list)
  /\ Forall (fun p => fst p <= snd p) (Utils.rangify number_list)
  /\ (forall n,
        In n number_list -> ~ In (n - 1) number_list ->
        ~ In (n + 1) number_list ->
        In (n, n) (Utils.rangify number_list))
  /\ (number_list = [] -> Utils.rangify number_list = [])
  /\ (forall name statements misses rate,
        TextReporter.format_row
          (ClassRowMissed name statements misses rate number_list) =
        Ok (ClassRowMissed name statements misses (Py.fmt_pct rate)
              (Py.join ", "
                 (map (fun p : Z * Z =>
                         if Z.eqb (fst p) (snd p) then Py.fmt_d (fst p)
                         else Py.fmt_d (fst p) +:+ "-" +:+ Py.fmt_d (snd p))
                    (Utils.rangify number_list)))))
  /\ Utils.rangify [1; 2; 3; 7; 8; 10] = [(1, 3); (7, 8); (10, 10)]
  /\ Py.join ", "
       (map TextReporter.format_range (Utils.rangify [1; 2; 3; 7; 8; 10]))
     = "1-3, 7-8, 10".
Proof.
  pose proof (rangify_covers number_list Hsorted) as Hcover.
  pose proof (rangify_bounds number_list Hsorted) as Hbounds.
  pose proof (rangify_apart number_list Hsorted) as Hapart.
  pose proof (rangify_same_range number_list Hsorted) as Hsame.
  repeat apply conj.
  - intros n Hn. apply Hcover in Hn as (p & Hp & Hn).
    exists p. repeat (split; [assumption|]).
    intros q Hq Hnq. symmetry. eapply Hsame; eauto.
  - intros p k Hp Hk. apply Hcover. eauto.
  - intros n Hn Hn1. apply Hcover in Hn as (p & Hp & Hn).
    apply Hcover in Hn1 as (q & Hq & Hn1).
    assert (p = q) as <- by (eapply Hsame; eauto).
    exists p. repeat split; (assumption || lia).
  - eapply strongly_sorted_weaken; [|exact Hapart]. cbn. intros p q. lia.
  - exact Hbounds.
  - intros n Hn Hprev Hnext. apply Hcover in Hn as ([s e] & Hp & Hn).
    cbn in Hn.
    assert (s = n).
    { destruct (Z.eq_dec s n) as [|Hne]; [assumption|]. exfalso.
      apply Hprev, Hcover. exists (s, e). cbn. split; [assumption | lia]. }
    assert (e = n).
    { destruct (Z.eq_dec e n) as [|Hne]; [assumption|]. exfalso.
      apply Hnext, Hcover. exists (s, e). cbn. split; [assumption | lia]. }
    now subst.
  - now intros ->.
  - intros name statements misses rate. cbn. do 3 f_equal.
    apply map_ext. now intros [s e].
  - reflexivity.
  - reflexivity.
Qed.

Lemma rangify_ranges_witness :
  Sorted Z.lt [1; 2; 3; 7; 8; 10]
  /\ In (7, 8) (Utils.rangify [1; 2; 3; 7; 8; 10])
  /\ TextReporter.format_row
       (ClassRowMissed "a.py" 10 6 (Example.tenths 4) [1; 2; 3; 7; 8; 10]) =
     Ok (ClassRowMissed "a.py" 10 6 "40.00%" "1-3, 7-8, 10").
Proof.
  assert (Hsorted : Sorted Z.lt [1; 2; 3; 7; 8; 10])
    by (repeat constructor; lia).
  destruct (rangify_ranges [1; 2; 3; 7; 8; 10] Hsorted)
    as (_ & _ & _ & _ & _ & _ & _ & Hrow & Hranges & _).
  split; [exact Hsorted|]. split.
  - rewrite Hranges. cbn. auto.
  - rewrite Hrow. reflexivity.
Defined.

(** ** The diff engine of the spec *)

Section Engine.
Variable group_hunks :
  list (Z * string) -> list (Z * string) -> list (Z * bool) -> list Hunk.
Variable self : CoberturaDiff.t.

Let d : Differ := CoberturaDiff.as_differ group_hunks self.

Lemma engine_class_files (name : string) :
  In name (class_files d) <->
  is_Some (CoberturaDiff.lookup1 self name)
  \/ is_Some (CoberturaDiff.lookup2 self name).
Proof.
  cbn. unfold CoberturaDiff.class_files.
  rewrite <- list_elem_of_In, elem_of_elements, elem_of_union,
    !elem_of_dom.
  reflexivity.
Qed.

Lemma engine_known {A : Type} (name : string) (value : A) :
  In name (class_files d) -> CoberturaDiff.known self name value = Ok value.
Proof.
  intros Hin. apply engine_class_files in Hin. unfold CoberturaDiff.known.
  destruct (CoberturaDiff.lookup1 self name), (CoberturaDiff.lookup2 self name);
    try reflexivity.
  destruct Hin as [[? Hin]|[? Hin]]; discriminate.
Qed.

Lemma engine_answers (with_lines : bool) : answers d with_lines = true.
Proof.
  unfold answers. cbn [d CoberturaDiff.as_differ diff_total_statements
    diff_total_misses diff_line_rate diff_missed_lines class_files].
  cbn [CoberturaDiff.diff_total_statements CoberturaDiff.diff_total_misses
    CoberturaDiff.diff_line_rate is_ok andb].
  apply forallb_forall. intros name Hin.
  unfold CoberturaDiff.diff_missed_lines.
  rewrite !engine_known by exact Hin. cbn. apply orb_true_r.
Qed.

Lemma engine_answers_hunks : answers_hunks d = true.
Proof.
  unfold answers_hunks. apply forallb_forall. intros name Hin.
  cbn. unfold CoberturaDiff.class_source_hunks,
    CoberturaDiff.diff_missed_lines.
  rewrite engine_known by exact Hin. cbn [bind].
  destruct (CoberturaDiff.lookup1 self name) as [f1|]; [|reflexivity].
  destruct (CoberturaDiff.lookup2 self name) as [f2|]; [|reflexivity].
  destruct (Cobertura.cf_source_lines f1); [|reflexivity].
  destruct (Cobertura.cf_source_lines f2); reflexivity.
Qed.

End Engine.

Lemma fsub_self (rate : Py.float) :
  Cobertura.rate_in_range rate = true -> Py.fsub rate rate = Py.fzero.
Proof.
  destruct rate as [s|s| |s m e]; try destruct s; try discriminate;
    try reflexivity.
  intros _. unfold Py.fsub, SFsub. cbn [cond_Zopp]. now rewrite Z.sub_diag.
Qed.

Lemma only_in_self (is_new : bool) (numbers : list Z) :
  CoberturaDiff.only_in is_new numbers numbers = [].
Proof.
  unfold CoberturaDiff.only_in.
  assert (H : forall others,
            (forall lno, In lno others -> In lno numbers) ->
            List.filter (fun lno => negb (existsb (Z.eqb lno) numbers)) others
            = []).
  { induction others as [|lno others IH]; intros Hsub; [reflexivity|].
    cbn [List.filter].
    assert (Hex : existsb (Z.eqb lno) numbers = true).
    { apply existsb_exists. exists lno. split; [apply Hsub; now left|].
      apply Z.eqb_refl. }
    rewrite Hex. cbn [negb]. apply IH. intros lno' Hin. apply Hsub. now right. }
  rewrite H; auto.
Qed.

(** C6: a file of the new snapshot only, with 5 statements and 2 misses, has
    the deltas 5 and 2, and its row is in the report. *)
Theorem added_file_is_reported
  (group_hunks :
     list (Z * string) -> list (Z * string) -> list (Z * bool) -> list Hunk)
  (self : CoberturaDiff.t) (name : string) (file : Cobertura.class_file)
  (show_source : Py.value)
  (Hold : CoberturaDiff.lookup1 self name = None)
  (Hnew : CoberturaDiff.lookup2 self name = Some file)
  (Hstatements : Cobertura.cf_total_statements file = 5)
  (Hmisses : Cobertura.cf_total_misses file = 2) :
  CoberturaDiff.diff_total_statements self (Some name) = Ok 5
  /\ CoberturaDiff.diff_total_misses self (Some name) = Ok 2
  /\ exists lines row,
      DeltaReporter.get_report_lines
        (DeltaReporter.Build_t (CoberturaDiff.as_differ group_hunks self)
           show_source) = Ok lines
      /\ DeltaReporter.get_class_row
           (DeltaReporter.Build_t (CoberturaDiff.as_differ group_hunks self)
              show_source) name = Ok row
      /\ total_statements row = 5
      /\ total_misses row = 2
      /\ In row (removelast lines).
Proof.
  set (reporter := DeltaReporter.Build_t
                     (CoberturaDiff.as_differ group_hunks self) show_source).
  assert (Hs : CoberturaDiff.diff_total_statements self (Some name) = Ok 5).
  { cbn. unfold CoberturaDiff.known. rewrite Hold, Hnew. cbn.
    now rewrite Hstatements. }
  assert (Hm : CoberturaDiff.diff_total_misses self (Some name) = Ok 2).
  { cbn. unfold CoberturaDiff.known. rewrite Hold, Hnew. cbn.
    now rewrite Hmisses. }
  repeat (split; [assumption|]).
  assert (Hanswers : answers (DeltaReporter.differ reporter)
                       (DeltaReporter.show_source reporter) = true)
    by apply engine_answers.
  assert (Hin : In name (class_files (DeltaReporter.differ reporter))).
  { apply engine_class_files. right. rewrite Hnew. eauto. }
  destruct (get_report_lines_returns reporter Hanswers)
    as (rows & footer & Hrows & Hfooter & Hlines).
  apply for_each_pointwise in Hrows.
  destruct (Forall2_In_l _ _ _ _ Hrows Hin) as (row & Hrow_in & Hrow).
  exists (List.filter any_tail rows ++ [footer]), row.
  repeat (split; [assumption|]).
  destruct (class_row_returns reporter Hanswers name Hin)
    as (s & m & r & Hs' & Hm' & _ & Hshape).
  pose proof (eq_trans (eq_sym Hs) Hs') as Es.
  pose proof (eq_trans (eq_sym Hm) Hm') as Em.
  injection Es as <-. injection Em as <-.
  rewrite removelast_snoc, filter_In.
  destruct (DeltaReporter.show_source reporter);
    [destruct Hshape as (ml & _ & Hshape)|];
    rewrite Hrow in Hshape; injection Hshape as ->; cbn; auto.
Qed.

Lemma added_file_is_reported_witness :
  let self := CoberturaDiff.Build_t Example.old_snapshot Example.new_snapshot in
  CoberturaDiff.lookup1 self "c.py" = None
  /\ CoberturaDiff.diff_total_statements self (Some "c.py") = Ok 5
  /\ CoberturaDiff.diff_total_misses self (Some "c.py") = Ok 2
  /\ exists lines,
      DeltaReporter.get_report_lines (Example.reporter true) = Ok lines
      /\ In (ClassRowMissed "c.py" 5 2
               (Py.fsub (Example.tenths 6) Py.fzero) [(1, true); (2, true)])
           (removelast lines).
Proof.
  intros self.
  destruct (added_file_is_reported Example.one_hunk self "c.py"
              (Cobertura.Build_class_file 5 2 (Example.tenths 6) [1; 2]
                 (Example.text [1; 2; 3; 4; 5]))
              (Py.PyBool true) eq_refl eq_refl eq_refl eq_refl)
    as (Hs & Hm & lines & row & Hlines & Hrow & _ & _ & Hin).
  split; [reflexivity|]. repeat (split; [assumption|]).
  exists lines. split; [exact Hlines|].
  vm_compute in Hrow. injection Hrow as <-. exact Hin.
Defined.

(** C7: the diff of a snapshot with itself has, for every file, zero scalar
    deltas and no changed missed line; its report is the totals row alone,
    with zero deltas. *)
Theorem self_diff_is_empty
  (group_hunks :
     list (Z * string) -> list (Z * string) -> list (Z * bool) -> list Hunk)
  (snapshot : Cobertura.t) (show_source : Py.value)
  (Hrates : Cobertura.rates_in_range snapshot = true) :
  (forall name,
     In name (CoberturaDiff.class_files (CoberturaDiff.Build_t snapshot snapshot)) ->
     CoberturaDiff.diff_total_statements
       (CoberturaDiff.Build_t snapshot snapshot) (Some name) = Ok 0
     /\ CoberturaDiff.diff_total_misses
          (CoberturaDiff.Build_t snapshot snapshot) (Some name) = Ok 0
     /\ CoberturaDiff.diff_line_rate
          (CoberturaDiff.Build_t snapshot snapshot) (Some name) = Ok Py.fzero
     /\ CoberturaDiff.diff_missed_lines
          (CoberturaDiff.Build_t snapshot snapshot) name = Ok [])
  /\ DeltaReporter.get_report_lines
       (DeltaReporter.Build_t
          (CoberturaDiff.as_differ group_hunks
             (CoberturaDiff.Build_t snapshot snapshot))
          show_source) =
     Ok [if Py.truthy show_source then ClassRowMissed "TOTAL" 0 0 Py.fzero []
         else ClassRow "TOTAL" 0 0 Py.fzero].
Proof.
  set (self := CoberturaDiff.Build_t snapshot snapshot).
  set (reporter := DeltaReporter.Build_t
                     (CoberturaDiff.as_differ group_hunks self) show_source).
  apply andb_prop in Hrates as [Hall Hfiles]. rewrite forallb_forall in Hfiles.
  assert (Hfile : forall name,
            In name (CoberturaDiff.class_files self) ->
            CoberturaDiff.diff_total_statements self (Some name) = Ok 0
            /\ CoberturaDiff.diff_total_misses self (Some name) = Ok 0
            /\ CoberturaDiff.diff_line_rate self (Some name) = Ok Py.fzero
            /\ CoberturaDiff.diff_missed_lines self name = Ok []).
  { intros name Hin.
    apply (engine_class_files group_hunks self) in Hin.
    assert (Hsome : exists file,
              Cobertura.files snapshot !! name = Some file)
      by (destruct Hin as [[file H]|[file H]]; exists file; exact H).
    destruct Hsome as [file Hlookup].
    assert (Hrate : Cobertura.rate_in_range (Cobertura.cf_line_rate file) = true).
    { apply (Hfiles (name, file)). apply list_elem_of_In.
      now apply elem_of_map_to_list. }
    unfold CoberturaDiff.diff_total_statements,
      CoberturaDiff.diff_total_misses, CoberturaDiff.diff_line_rate,
      CoberturaDiff.diff_missed_lines, CoberturaDiff.known,
      CoberturaDiff.lookup1, CoberturaDiff.lookup2.
    cbn [self CoberturaDiff.cobertura1 CoberturaDiff.cobertura2].
    rewrite Hlookup.
    cbn [CoberturaDiff.count_or_zero CoberturaDiff.rate_or_zero
           CoberturaDiff.lines_or_none].
    rewrite !Z.sub_diag, (fsub_self _ Hrate), !only_in_self. auto. }
  split; [exact Hfile|].
  rewrite get_report_lines_filter.
  assert (Hanswers : answers (DeltaReporter.differ reporter)
                       (DeltaReporter.show_source reporter) = true)
    by apply engine_answers.
  destruct (class_rows_return reporter Hanswers) as [rows Hrows].
  rewrite Hrows. cbn [bind].
  assert (Hnone : List.filter any_tail rows = []).
  { apply for_each_pointwise in Hrows.
    assert (Hsub : forall name,
              In name (class_files (DeltaReporter.differ reporter)) ->
              In name (CoberturaDiff.class_files self)) by auto.
    revert Hsub. induction Hrows as [|name row names rows Hrow _ IH];
      intros Hsub; [reflexivity|].
    destruct (Hfile name (Hsub name (or_introl eq_refl)))
      as (Hs & Hm & Hr & Hml).
    assert (Hdrop : any_tail row = false).
    { unfold DeltaReporter.get_class_row in Hrow.
      cbn [reporter DeltaReporter.differ DeltaReporter.show_source
             DeltaReporter.show_source_attr
             CoberturaDiff.as_differ diff_total_statements diff_total_misses
             diff_line_rate diff_missed_lines] in Hrow.
      rewrite Hs, Hm, Hr, Hml in Hrow. cbn [bind] in Hrow.
      destruct (DeltaReporter.show_source reporter); injection Hrow as <-;
        reflexivity. }
    cbn [List.filter]. rewrite Hdrop. apply IH.
    intros name' Hin. apply Hsub. now right. }
  rewrite Hnone. unfold DeltaReporter.get_footer_row.
  cbn [reporter DeltaReporter.differ DeltaReporter.show_source_truthy
         DeltaReporter.show_source_attr self
         CoberturaDiff.as_differ diff_total_statements diff_total_misses
         diff_line_rate CoberturaDiff.diff_total_statements
         CoberturaDiff.diff_total_misses CoberturaDiff.diff_line_rate
         CoberturaDiff.cobertura1 CoberturaDiff.cobertura2 bind].
  rewrite !Z.sub_diag, (fsub_self _ Hall).
  change (DeltaReporter.show_source_truthy reporter)
    with (Py.truthy show_source).
  now destruct (Py.truthy show_source).
Qed.

Lemma self_diff_is_empty_witness :
  Cobertura.rates_in_range Example.new_snapshot = true
  /\ In "a.py"
       (CoberturaDiff.class_files
          (CoberturaDiff.Build_t Example.new_snapshot Example.new_snapshot))
  /\ CoberturaDiff.diff_missed_lines
       (CoberturaDiff.Build_t Example.new_snapshot Example.new_snapshot) "a.py"
     = Ok []
  /\ DeltaReporter.get_report_lines
       (DeltaReporter.Build_t
          (Example.engine Example.new_snapshot Example.new_snapshot)
          (Py.PyBool true)) =
     Ok [ClassRowMissed "TOTAL" 0 0 Py.fzero []].
Proof.
  assert (Hrates : Cobertura.rates_in_range Example.new_snapshot = true)
    by (vm_compute; reflexivity).
  destruct (self_diff_is_empty Example.one_hunk Example.new_snapshot
              (Py.PyBool true) Hrates) as [Hfiles Hreport].
  assert (Hin : In "a.py"
                  (CoberturaDiff.class_files
                     (CoberturaDiff.Build_t Example.new_snapshot
                        Example.new_snapshot)))
    by (vm_compute; auto).
  split; [exact Hrates|]. split; [exact Hin|]. split.
  - now apply Hfiles.
  - exact Hreport.
Defined.

(** ** [HtmlReporterDelta.generate] *)

Section Generate.
Import HtmlReporterDelta.

Variable self : HtmlReporterDelta.t.

(** The loop appends, in order, the class files with hunks. *)
Lemma collect_sources_appends (names : list string) :
  (forall name, In name names ->
     is_ok (class_source_hunks (differ self) name) = true) ->
  forall sources,
  exists found,
    collect_sources self names sources = Ok (sources ++ found)
    /\ forall name hunks,
        In (name, hunks) found <->
        In name names
        /\ class_source_hunks (differ self) name = Ok hunks
        /\ hunks <> [].
Proof.
  induction names as [|name names IH]; intros Hall sources.
  - exists []. cbn. rewrite app_nil_r. split; [reflexivity|]. tauto.
  - destruct (is_ok_true _ (Hall name (or_introl eq_refl))) as [hunks Hhunks].
    assert (Hrest : forall name', In name' names ->
              is_ok (class_source_hunks (differ self) name') = true)
      by (intros name' Hin; apply Hall; now right).
    cbn [collect_sources]. unfold get_source_hunks. rewrite Hhunks.
    cbn [bind]. destruct hunks as [|hunk hunks]; cbn [Py.list_truthy negb].
    + destruct (IH Hrest sources) as (found & Hfound & Hiff).
      exists found. split; [exact Hfound|].
      intros name' hunks'. rewrite Hiff. cbn [In]. split.
      * tauto.
      * intros ([<-|Hin] & Heq & Hne); [|tauto].
        rewrite Hhunks in Heq. injection Heq as <-. congruence.
    + destruct (IH Hrest (sources ++ [(name, hunk :: hunks)]))
        as (found & Hfound & Hiff).
      exists ((name, hunk :: hunks) :: found).
      split; [now rewrite Hfound, <- app_assoc|].
      intros name' hunks'. cbn [In]. rewrite Hiff. split.
      * intros [Heq|H]; [|tauto]. injection Heq as <- <-.
        repeat split; auto; discriminate.
      * intros ([<-|Hin] & Heq & Hne); [|tauto].
        rewrite Hhunks in Heq. injection Heq as <-. now left.
Qed.

Lemma last_item_snoc {A : Type} (l : list A) (x : A) :
  last_item (l ++ [x]) = Ok x.
Proof. unfold last_item. now rewrite rev_app_distr. Qed.

Lemma for_each_snoc {A B : Type} (f : A -> result B) (xs : list A) (x : A)
  (ys : list B) :
  for_each f (xs ++ [x]) = Ok ys ->
  exists ys' y, ys = ys' ++ [y] /\ for_each f xs = Ok ys' /\ f x = Ok y.
Proof.
  revert ys. induction xs as [|x' xs IH]; cbn [app for_each]; intros ys H.
  - apply bind_ok in H as (y & Hy & H). cbn in H. injection H as <-.
    exists [], y. auto.
  - apply bind_ok in H as (y' & Hy' & H).
    apply bind_ok in H as (ys0 & Hys0 & H). injection H as <-.
    destruct (IH _ Hys0) as (ys' & y & -> & Hys' & Hy).
    exists (y' :: ys'), y. rewrite Hy', Hys'. auto.
Qed.

End Generate.

(** C8: [generate] returns, and a class file whose [class_source_hunks] is
    the empty sequence is not among the sources it hands to the template:
    these are, when [show_source] is set, the class files with hunks, and
    the key is not set otherwise. *)
Theorem generate_skips_files_without_hunks (self : HtmlReporterDelta.t)
  (Hanswers :
     answers (HtmlReporterDelta.differ self)
       (TextReporterDelta.show_source self) = true)
  (Hhunks :
     TextReporterDelta.show_source self = true ->
     answers_hunks (HtmlReporterDelta.differ self) = true) :
  exists kwargs,
    HtmlReporterDelta.generate self = Ok kwargs
    /\ (if TextReporterDelta.show_source self
        then exists sources,
               HtmlReporterDelta.kw_sources kwargs = Some sources
               /\ forall name hunks,
                   In (name, hunks) sources <->
                   In name (class_files (HtmlReporterDelta.differ self))
                   /\ class_source_hunks (HtmlReporterDelta.differ self) name
                      = Ok hunks
                   /\ hunks <> []
        else HtmlReporterDelta.kw_sources kwargs = None)
    /\ forall name sources,
        class_source_hunks (HtmlReporterDelta.differ self) name = Ok [] ->
        HtmlReporterDelta.kw_sources kwargs = Some sources ->
        ~ In name (map fst sources).
Proof.
  destruct (report_lines_shape (TextReporterDelta.base self) Hanswers)
    as (rows & footer & Hlines & _ & _ & _ & Hshape).
  assert (Hformatted : exists formatted,
            for_each (HtmlReporterDelta.format_row self) (rows ++ [footer])
            = Ok formatted).
  { apply for_each_returns. intros row Hin.
    rewrite List.Forall_forall in Hshape.
    destruct (html_format_row_fields self row) as (out & Hout & _); [|eauto].
    exact (Hshape row Hin). }
  destruct Hformatted as [formatted Hformatted].
  destruct (for_each_snoc _ _ _ _ Hformatted) as (body & last & -> & _ & _).
  assert (Hsources : exists sources,
            (if TextReporterDelta.show_source self
             then let* sources :=
                    HtmlReporterDelta.collect_sources self
                      (class_files (HtmlReporterDelta.differ self)) [] in
                  Ok (Some sources)
             else Ok None) = Ok sources
            /\ (if TextReporterDelta.show_source self
                then exists found,
                       sources = Some found
                       /\ forall name hunks,
                           In (name, hunks) found <->
                           In name (class_files (HtmlReporterDelta.differ self))
                           /\ class_source_hunks
                                (HtmlReporterDelta.differ self) name = Ok hunks
                           /\ hunks <> []
                else sources = None)).
  { destruct (TextReporterDelta.show_source self); [|eauto].
    specialize (Hhunks eq_refl). unfold answers_hunks in Hhunks.
    rewrite forallb_forall in Hhunks.
    destruct (collect_sources_appends self _ Hhunks []) as (found & Hfound & Hiff).
    rewrite Hfound. cbn. eauto. }
  destruct Hsources as (sources & Hsources & Hcontent).
  eexists. split; [|split].
  - unfold HtmlReporterDelta.generate.
    rewrite Hlines. cbn [bind]. rewrite Hformatted. cbn [bind].
    rewrite Hsources. cbn [bind]. rewrite last_item_snoc. cbn [bind].
    reflexivity.
  - cbn [HtmlReporterDelta.kw_sources].
    destruct (TextReporterDelta.show_source self); [|exact Hcontent].
    destruct Hcontent as (found & -> & Hiff). eauto.
  - cbn [HtmlReporterDelta.kw_sources]. intros name found Hempty ->.
    destruct (TextReporterDelta.show_source self);
      [|discriminate Hcontent].
    destruct Hcontent as (found' & Heq & Hiff). injection Heq as <-.
    intros Hin. apply in_map_iff in Hin as ([name' hunks] & Hname & Hin).
    cbn in Hname. subst name'.
    apply Hiff in Hin as (_ & Hhunks' & Hne).
    rewrite Hempty in Hhunks'. injection Hhunks' as <-. congruence.
Qed.

Lemma generate_skips_files_without_hunks_witness :
  answers (HtmlReporterDelta.differ (Example.html_reporter true))
    (TextReporterDelta.show_source (Example.html_reporter true)) = true
  /\ answers_hunks (HtmlReporterDelta.differ (Example.html_reporter true)) = true
  /\ class_source_hunks (HtmlReporterDelta.differ (Example.html_reporter true))
       "b.py" = Ok []
  /\ exists kwargs sources,
      HtmlReporterDelta.generate (Example.html_reporter true) = Ok kwargs
      /\ HtmlReporterDelta.kw_sources kwargs = Some sources
      /\ map fst sources = ["a.py"]
      /\ ~ In "b.py" (map fst sources).
Proof.
  assert (Hanswers :
            answers (HtmlReporterDelta.differ (Example.html_reporter true))
              (TextReporterDelta.show_source (Example.html_reporter true))
            = true) by (vm_compute; reflexivity).
  assert (Hhunks :
            answers_hunks (HtmlReporterDelta.differ (Example.html_reporter true))
            = true) by (vm_compute; reflexivity).
  assert (Hempty :
            class_source_hunks
              (HtmlReporterDelta.differ (Example.html_reporter true)) "b.py"
            = Ok []) by (vm_compute; reflexivity).
  destruct (generate_skips_files_without_hunks (Example.html_reporter true)
              Hanswers (fun _ => Hhunks))
    as (kwargs & Hgenerate & _ & Hskip).
  repeat (split; [assumption|]).
  assert (Hsources : exists sources,
            HtmlReporterDelta.kw_sources kwargs = Some sources
            /\ map fst sources = ["a.py"]).
  { vm_compute in Hgenerate. injection Hgenerate as <-. cbn. eauto. }
  destruct Hsources as (sources & Hsources & Hnames).
  exists kwargs, sources. repeat (split; [assumption|]).
  now apply Hskip.
Defined.

(** * Further properties of the reporters *)

(** ** The first exception of a loop *)

Lemma for_each_raises {A B : Type} (f : A -> result B) (xs : list A) (e : exn) :
  for_each f xs = Raise e <->
  exists before x after,
    xs = before ++ x :: after
    /\ List.Forall (fun y => is_ok (f y) = true) before
    /\ f x = Raise e.
Proof.
  induction xs as [|x xs IH]; cbn [for_each].
  - split; [discriminate|]. intros (before & y & after & Heq & _).
    now destruct before.
  - destruct (f x) as [y|e'] eqn:Hx; cbn [bind].
    + destruct (for_each f xs) as [ys|e'] eqn:Hxs; cbn [bind].
      * split; [discriminate|].
        intros (before & x' & after & Heq & Hbefore & Hraise).
        destruct before as [|b before]; cbn in Heq; injection Heq as <- ->.
        -- congruence.
        -- apply List.Forall_inv_tail in Hbefore.
           assert (Hex : exists before0 x0 after0,
                     before ++ x' :: after = before0 ++ x0 :: after0
                     /\ List.Forall (fun y => is_ok (f y) = true) before0
                     /\ f x0 = Raise e) by eauto 7.
           apply IH in Hex. discriminate.
      * split.
        -- intros He. apply IH in He as (before & x' & after & -> & Hb & Hr).
           exists (x :: before), x', after. repeat split; auto.
           constructor; [now rewrite Hx | assumption].
        -- intros (before & x' & after & Heq & Hbefore & Hraise).
           destruct before as [|b before]; cbn in Heq; injection Heq as <- ->.
           ++ congruence.
           ++ apply List.Forall_inv_tail in Hbefore. apply IH. eauto 7.
    + split.
      * intros He. injection He as ->. exists [], x, xs. repeat split; auto.
      * intros (before & x' & after & Heq & Hbefore & Hraise).
        destruct before as [|b before]; cbn in Heq; injection Heq as <- ->.
        -- congruence.
        -- apply List.Forall_inv in Hbefore. rewrite Hx in Hbefore.
           discriminate.
Qed.

Lemma for_each_all_ok {A B : Type} (f : A -> result B) (xs : list A)
  (ys : list B) :
  for_each f xs = Ok ys -> List.Forall (fun x => is_ok (f x) = true) xs.
Proof.
  intros H. apply for_each_pointwise in H.
  induction H as [|x y xs ys Hxy _ IH]; constructor; [now rewrite Hxy | auto].
Qed.

(** X5: [DeltaReporter.get_report_lines] raises what the first class file
    that the engine fails on raises, in the order of [class_files()], or,
    when the row of every class file is built, what the footer raises: there
    is no partial report. *)
Theorem get_report_lines_first_error (self : DeltaReporter.t) (e : exn) :
  DeltaReporter.get_report_lines self = Raise e <->
  (exists before name after,
     class_files (DeltaReporter.differ self) = before ++ name :: after
     /\ List.Forall
          (fun n => is_ok (DeltaReporter.get_class_row self n) = true) before
     /\ DeltaReporter.get_class_row self name = Raise e)
  \/ (List.Forall
        (fun n => is_ok (DeltaReporter.get_class_row self n) = true)
        (class_files (DeltaReporter.differ self))
      /\ DeltaReporter.get_footer_row self = Raise e).
Proof.
  rewrite get_report_lines_filter.
  destruct (for_each (DeltaReporter.get_class_row self)
              (class_files (DeltaReporter.differ self))) as [rows|e'] eqn:Hrows;
    cbn [bind].
  - pose proof (for_each_all_ok _ _ _ Hrows) as Hall.
    destruct (DeltaReporter.get_footer_row self) as [footer|e'] eqn:Hfooter;
      cbn [bind].
    + split; [discriminate|].
      intros [(before & name & after & Heq & _ & Hraise)|[_ H]];
        [|discriminate].
      rewrite Heq in Hall. apply List.Forall_app in Hall as [_ Hall].
      apply List.Forall_inv in Hall. rewrite Hraise in Hall. discriminate.
    + split.
      * intros He. injection He as ->. right. auto.
      * intros [(before & name & after & Heq & _ & Hraise)|[_ H]].
        -- rewrite Heq in Hall. apply List.Forall_app in Hall as [_ Hall].
           apply List.Forall_inv in Hall. rewrite Hraise in Hall.
           discriminate.
        -- now injection H as ->.
  - split.
    + intros He. injection He as ->. left. now apply for_each_raises.
    + intros [Hfirst|[Hall _]].
      * apply for_each_raises in Hfirst. congruence.
      * apply for_each_raises in Hrows
          as (before & name & after & Heq & _ & Hraise).
        rewrite Heq in Hall. apply List.Forall_app in Hall as [_ Hall].
        apply List.Forall_inv in Hall. rewrite Hraise in Hall. discriminate.
Qed.

(** ** What a returned report looks like *)

Lemma get_class_row_inv (self : DeltaReporter.t) (name : string)
  (row : DeltaRow) :
  DeltaReporter.get_class_row self name = Ok row ->
  class_filename row = name
  /\ is_ok (missed_lines row) = DeltaReporter.show_source self.
Proof.
  unfold DeltaReporter.get_class_row. intros H.
  apply bind_ok in H as (s & _ & H). apply bind_ok in H as (m & _ & H).
  apply bind_ok in H as (r & _ & H).
  destruct (DeltaReporter.show_source self).
  - apply bind_ok in H as (ml & _ & H). now injection H as <-.
  - now injection H as <-.
Qed.

Lemma get_footer_row_inv (self : DeltaReporter.t) (footer : DeltaRow) :
  DeltaReporter.get_footer_row self = Ok footer ->
  class_filename footer = "TOTAL"
  /\ is_ok (missed_lines footer) = DeltaReporter.show_source_truthy self.
Proof.
  unfold DeltaReporter.get_footer_row. intros H.
  apply bind_ok in H as (s & _ & H). apply bind_ok in H as (m & _ & H).
  apply bind_ok in H as (r & _ & H).
  destruct (DeltaReporter.show_source_truthy self); now injection H as <-.
Qed.

(** A returned report is the kept rows of the class files, then the
    footer. *)
Lemma get_report_lines_inv (self : DeltaReporter.t) (lines : list DeltaRow) :
  DeltaReporter.get_report_lines self = Ok lines ->
  exists rows footer,
    lines = List.filter any_tail rows ++ [footer]
    /\ Forall2 (fun name row => DeltaReporter.get_class_row self name = Ok row)
         (class_files (DeltaReporter.differ self)) rows
    /\ DeltaReporter.get_footer_row self = Ok footer.
Proof.
  rewrite get_report_lines_filter. intros H.
  apply bind_ok in H as (rows & Hrows & H).
  apply bind_ok in H as (footer & Hfooter & H). injection H as <-.
  exists rows, footer. auto using for_each_pointwise.
Qed.

Lemma get_report_lines_inv_shape (self : DeltaReporter.t)
  (lines : list DeltaRow) :
  DeltaReporter.get_report_lines self = Ok lines ->
  List.Forall
    (fun row =>
       DeltaReporter.show_source self = true ->
       is_ok (missed_lines row) = true)
    lines.
Proof.
  intros H. apply get_report_lines_inv in H
    as (rows & footer & -> & Hrows & Hfooter).
  apply List.Forall_app. split.
  - apply List.Forall_forall. intros row Hin Hshow.
    apply filter_In in Hin as [Hin _].
    destruct (Forall2_In_r _ _ _ _ Hrows Hin) as (name & _ & Hrow).
    apply get_class_row_inv in Hrow as [_ ->]. exact Hshow.
  - constructor; [|constructor]. intros Hshow.
    apply get_footer_row_inv in Hfooter as [_ ->].
    now apply is_True_truthy.
Qed.


(** ** The exceptions of [format_row] *)

(** X6: the two [format_row]s of the delta reporters raise in one case only, a
    row without missed lines under a reporter with [show_source] set, and
    then an [AttributeError]; the colouring never raises. *)
Theorem delta_format_row_raises (green red : string -> string)
  (self : TextReporterDelta.t) (row : DeltaRow) (e : exn) :
  (TextReporterDelta.format_row green red self row = Raise e <->
   TextReporterDelta.show_source self = true
   /\ row_len row = 4%nat /\ e = AttributeError "missed_lines")
  /\ (HtmlReporterDelta.format_row self row = Raise e <->
      TextReporterDelta.show_source self = true
      /\ row_len row = 4%nat /\ e = AttributeError "missed_lines").
Proof.
  destruct (TextReporterDelta.show_source self) eqn:Hshow.
  - destruct row as [name s m r|name s m r ml].
    + split.
      * unfold TextReporterDelta.format_row.
        rewrite colorize_total_misses, Hshow. cbn.
        split; [intros H; injection H as <-; auto|].
        now intros (_ & _ & ->).
      * unfold HtmlReporterDelta.format_row. rewrite Hshow. cbn.
        split; [intros H; injection H as <-; auto|].
        now intros (_ & _ & ->).
    + split.
      * rewrite (text_format_row_cells green red self) by reflexivity.
        split; [discriminate | now intros (_ & ? & _)].
      * destruct (html_format_row_fields self (ClassRowMissed name s m r ml))
          as (out & -> & _); [reflexivity|].
        split; [discriminate | now intros (_ & ? & _)].
  - split.
    + rewrite (text_format_row_cells green red self)
        by (rewrite Hshow; discriminate).
      split; [discriminate | now intros (? & _)].
    + destruct (html_format_row_fields self row) as (out & -> & _);
        [rewrite Hshow; discriminate|].
      split; [discriminate | now intros (? & _)].
Qed.

(** X7: without [color], the cells of a text row are the fields of the HTML
    row, its missed lines joined with [", "]. *)
Theorem text_cells_are_html_fields (green red : string -> string)
  (self : TextReporterDelta.t) (row : DeltaRow)
  (out : Row string string (list string))
  (Hcolor : TextReporterDelta.color self = false)
  (Hout : HtmlReporterDelta.format_row self row = Ok out) :
  TextReporterDelta.format_row green red self row =
  Ok ([class_filename out; total_statements out; total_misses out;
       line_rate out]
      ++ match missed_lines out with
         | Ok missed => [Py.join ", " missed]
         | Raise _ => []
         end).
Proof.
  assert (Hshape : TextReporterDelta.show_source self = true ->
                   is_ok (missed_lines row) = true).
  { intros Hshow. unfold HtmlReporterDelta.format_row in Hout.
    rewrite Hshow in Hout. now destruct (missed_lines row). }
  rewrite (text_format_row_cells green red self row Hshape).
  destruct (html_format_row_fields self row Hshape)
    as (out' & Hout' & Hname & Hs & Hm & Hr & Hlines & Hhas).
  rewrite Hout in Hout'. injection Hout' as <-.
  rewrite Hname, Hs, Hm, Hr, Hcolor. cbn [andb]. do 2 f_equal.
  destruct (TextReporterDelta.show_source self).
  - destruct (Hlines eq_refl) as (entries & -> & ->). reflexivity.
  - now destruct (missed_lines out).
Qed.

Lemma text_cells_are_html_fields_witness :
  let self := TextReporterDelta.Build_t (Example.reporter true) false in
  let row : DeltaRow :=
    ClassRowMissed "a.py" 0 (-1) (Example.tenths 1)
      [(3, false); (5, true); (9, false)] in
  TextReporterDelta.color self = false
  /\ HtmlReporterDelta.format_row self row =
     Ok (ClassRowMissed "a.py" "-" "-1" "+10.00%" ["-3"; "+5"; "-9"])
  /\ TextReporterDelta.format_row Example.green Example.red self row =
     Ok ["a.py"; "-"; "-1"; "+10.00%"; "-3, +5, -9"].
Proof.
  intros self row.
  assert (Hout : HtmlReporterDelta.format_row self row =
                 Ok (ClassRowMissed "a.py" "-" "-1" "+10.00%"
                       ["-3"; "+5"; "-9"])) by (vm_compute; reflexivity).
  split; [reflexivity|]. split; [exact Hout|].
  rewrite (text_cells_are_html_fields Example.green Example.red self row _
             eq_refl Hout).
  reflexivity.
Defined.

(** ** [generate] of the delta reporters *)

Lemma get_class_row_raises (self : DeltaReporter.t) (name : string) (e : exn) :
  DeltaReporter.get_class_row self name = Raise e ->
  engine_raises (DeltaReporter.differ self) e.
Proof.
  unfold DeltaReporter.get_class_row, engine_raises.
  destruct (diff_total_statements (DeltaReporter.differ self) (Some name))
    as [s|e1] eqn:Hs; cbn [bind];
    [|intros H; injection H as ->; left; eauto].
  destruct (diff_total_misses (DeltaReporter.differ self) (Some name))
    as [m|e1] eqn:Hm; cbn [bind];
    [|intros H; injection H as ->; left; eauto].
  destruct (diff_line_rate (DeltaReporter.differ self) (Some name))
    as [r|e1] eqn:Hr; cbn [bind];
    [|intros H; injection H as ->; left; eauto 6].
  destruct (DeltaReporter.show_source self); [|discriminate].
  destruct (diff_missed_lines (DeltaReporter.differ self) name)
    as [ml|e1] eqn:Hml; cbn [bind]; [discriminate|].
  intros H; injection H as ->; right; eauto.
Qed.

Lemma get_footer_row_raises (self : DeltaReporter.t) (e : exn) :
  DeltaReporter.get_footer_row self = Raise e ->
  engine_raises (DeltaReporter.differ self) e.
Proof.
  unfold DeltaReporter.get_footer_row, engine_raises.
  destruct (diff_total_statements (DeltaReporter.differ self) None)
    as [s|e1] eqn:Hs; cbn [bind];
    [|intros H; injection H as ->; left; eauto].
  destruct (diff_total_misses (DeltaReporter.differ self) None)
    as [m|e1] eqn:Hm; cbn [bind];
    [|intros H; injection H as ->; left; eauto].
  destruct (diff_line_rate (DeltaReporter.differ self) None)
    as [r|e1] eqn:Hr; cbn [bind];
    [|intros H; injection H as ->; left; eauto 6].
  destruct (DeltaReporter.show_source_truthy self); discriminate.
Qed.

Lemma get_report_lines_raises (self : DeltaReporter.t) (e : exn) :
  DeltaReporter.get_report_lines self = Raise e ->
  engine_raises (DeltaReporter.differ self) e.
Proof.
  rewrite get_report_lines_filter.
  destruct (for_each (DeltaReporter.get_class_row self)
              (class_files (DeltaReporter.differ self))) as [rows|e1] eqn:Hrows;
    cbn [bind].
  - destruct (DeltaReporter.get_footer_row self) as [footer|e1] eqn:Hfooter;
      cbn [bind]; [discriminate|].
    intros H. injection H as ->. now apply get_footer_row_raises.
  - intros H. injection H as ->.
    apply for_each_raises in Hrows as (before & name & after & _ & _ & Hraise).
    now apply get_class_row_raises in Hraise.
Qed.

Section DeltaGenerate.
Variables green red : string -> string.
Variable tabulate : list (list string) -> list string -> string.
Variable self : TextReporterDelta.t.

Lemma html_rows_return (lines : list DeltaRow) :
  List.Forall
    (fun row =>
       TextReporterDelta.show_source self = true ->
       is_ok (missed_lines row) = true)
    lines ->
  exists formatted,
    for_each (HtmlReporterDelta.format_row self) lines = Ok formatted
    /\ Forall2
         (fun row out =>
            HtmlReporterDelta.format_row self row = Ok out
            /\ class_filename out = class_filename row)
         lines formatted.
Proof.
  induction 1 as [|row lines Hrow _ IH].
  - exists []. split; [reflexivity | constructor].
  - destruct IH as (formatted & Hformatted & Hall).
    destruct (html_format_row_fields self row Hrow)
      as (out & Hout & Hname & _).
    exists (out :: formatted). cbn [for_each]. rewrite Hout, Hformatted.
    split; [reflexivity|]. constructor; auto.
Qed.

Lemma text_rows_return (lines : list DeltaRow) :
  List.Forall
    (fun row =>
       TextReporterDelta.show_source self = true ->
       is_ok (missed_lines row) = true)
    lines ->
  exists table,
    for_each (TextReporterDelta.format_row green red self) lines = Ok table
    /\ Forall2
         (fun row cells =>
            length cells =
            (if TextReporterDelta.show_source self then 5 else 4)%nat
            /\ hd_error cells = Some (class_filename row))
         lines table.
Proof.
  induction 1 as [|row lines Hrow _ IH].
  - exists []. split; [reflexivity | constructor].
  - destruct IH as (table & Htable & Hall).
    pose proof Hrow as Hshape.
    eexists (_ :: table). cbn [for_each].
    rewrite (text_format_row_cells green red self row Hshape), Htable.
    split; [reflexivity|]. constructor; [|exact Hall].
    split; [|reflexivity].
    destruct (TextReporterDelta.show_source self); [|reflexivity].
    specialize (Hshape eq_refl).
    destruct (missed_lines row); [reflexivity | discriminate].
Qed.


Lemma collect_sources_raises (names : list string) :
  forall sources e,
    HtmlReporterDelta.collect_sources self names sources = Raise e ->
    exists name,
      class_source_hunks (HtmlReporterDelta.differ self) name = Raise e.
Proof.
  induction names as [|name names IH]; intros sources e H; cbn in H;
    [discriminate|].
  unfold HtmlReporterDelta.get_source_hunks in H.
  destruct (class_source_hunks (HtmlReporterDelta.differ self) name)
    as [hunks|e1] eqn:Hhunks; cbn [bind] in H.
  - destruct (negb (Py.list_truthy hunks)); eauto.
  - injection H as ->. eauto.
Qed.

End DeltaGenerate.

(** X8: the table of [TextReporterDelta.generate] is rectangular: it has one
    row of cells for every report line, headed by the name of the line, and
    every row has as many cells as there are headers, four or, with
    [show_source] set, five. *)
Theorem text_delta_generate_table (green red : string -> string)
  (tabulate : list (list string) -> list string -> string)
  (self : TextReporterDelta.t)
  (Hanswers :
     answers (DeltaReporter.differ (TextReporterDelta.base self))
       (TextReporterDelta.show_source self) = true) :
  exists lines table,
    DeltaReporter.get_report_lines (TextReporterDelta.base self) = Ok lines
    /\ TextReporterDelta.generate green red tabulate self =
       Ok (tabulate table
             (["Filename"; "Stmts"; "Miss"; "Cover"]
              ++ (if TextReporterDelta.show_source self
                  then ["Missing"] else [])))
    /\ Forall2
         (fun row cells =>
            length cells =
            length (["Filename"; "Stmts"; "Miss"; "Cover"]
                    ++ (if TextReporterDelta.show_source self
                        then ["Missing"] else []))
            /\ hd_error cells = Some (class_filename row))
         lines table
    /\ (1 <= length table
        <= S (length (class_files
                        (DeltaReporter.differ (TextReporterDelta.base self)))))%nat.
Proof.
  destruct (get_report_lines_returns (TextReporterDelta.base self) Hanswers)
    as (rows & footer & Hrows & _ & Hlines).
  pose proof (get_report_lines_inv_shape _ _ Hlines) as Hshape.
  destruct (text_rows_return green red self _ Hshape) as (table & Htable & Hall).
  exists (List.filter any_tail rows ++ [footer]), table.
  split; [exact Hlines|]. split; [|split].
  - unfold TextReporterDelta.generate. rewrite Hlines. cbn [bind].
    rewrite Htable. cbn [bind].
    now destruct (TextReporterDelta.show_source self).
  - eapply Forall2_impl; [exact Hall|]. cbn beta.
    intros row cells [Hlen Hhd]. split; [|exact Hhd]. rewrite Hlen.
    now destruct (TextReporterDelta.show_source self).
  - apply Forall2_length in Hall. rewrite <- Hall, length_app. cbn [length].
    apply for_each_pointwise, Forall2_length in Hrows. rewrite Hrows.
    pose proof (List.filter_length_le any_tail rows). lia.
Qed.

Lemma text_delta_generate_table_witness :
  let self := TextReporterDelta.Build_t (Example.reporter true) true in
  answers (DeltaReporter.differ (TextReporterDelta.base self))
    (TextReporterDelta.show_source self) = true
  /\ exists table,
      TextReporterDelta.generate Example.green Example.red
        ExampleSource.tabulate self =
      Ok (ExampleSource.tabulate table
            ["Filename"; "Stmts"; "Miss"; "Cover"; "Missing"])
      /\ length table = 3%nat
      /\ List.Forall (fun cells => length cells = 5%nat) table.
Proof.
  intros self.
  assert (Hanswers :
            answers (DeltaReporter.differ (TextReporterDelta.base self))
              (TextReporterDelta.show_source self) = true)
    by (vm_compute; reflexivity).
  split; [exact Hanswers|].
  destruct (text_delta_generate_table Example.green Example.red
              ExampleSource.tabulate self Hanswers)
    as (lines & table & Hlines & Hgenerate & Hall & _).
  exists table. split; [exact Hgenerate|]. split.
  - apply Forall2_length in Hall. rewrite <- Hall.
    vm_compute in Hlines. now injection Hlines as <-.
  - clear -Hall. induction Hall as [|row cells lines table [Hlen _] _ IH];
      constructor; [exact Hlen | exact IH].
Defined.



(** X10: whatever [generate] of the two delta reporters raises was raised by a
    method of the engine: building, formatting and indexing the lines raise
    nothing of their own. *)
Theorem delta_generate_raises_engine_errors (green red : string -> string)
  (tabulate : list (list string) -> list string -> string)
  (self : TextReporterDelta.t) (e : exn) :
  (TextReporterDelta.generate green red tabulate self = Raise e ->
   engine_raises (HtmlReporterDelta.differ self) e)
  /\ (HtmlReporterDelta.generate self = Raise e ->
      engine_raises (HtmlReporterDelta.differ self) e).
Proof.
  unfold TextReporterDelta.generate, HtmlReporterDelta.generate.
  destruct (DeltaReporter.get_report_lines (TextReporterDelta.base self))
    as [lines|e1] eqn:Hlines; cbn [bind].
  - pose proof (get_report_lines_inv_shape _ _ Hlines) as Hshape.
    destruct (text_rows_return green red self _ Hshape) as (table & -> & _).
    destruct (html_rows_return self _ Hshape) as (formatted & -> & Hall).
    cbn [bind]. split; [discriminate|].
    apply get_report_lines_inv in Hlines as (rows & footer & -> & _ & _).
    apply Forall2_app_inv_l in Hall as (body & last & _ & Hlast & ->).
    apply Forall2_cons_inv_l in Hlast as (out & nil & _ & Hnil & ->).
    apply Forall2_nil_inv_l in Hnil as ->.
    rewrite last_item_snoc.
    destruct (TextReporterDelta.show_source self); cbn [bind]; [|discriminate].
    destruct (HtmlReporterDelta.collect_sources self
                (class_files (HtmlReporterDelta.differ self)) [])
      as [sources|e1] eqn:Hsources; cbn [bind]; [discriminate|].
    intros H. injection H as ->.
    apply collect_sources_raises in Hsources as [name Hname].
    right. eauto.
  - split; intros H; injection H as ->;
      now apply get_report_lines_raises in Hlines.
Qed.

Lemma delta_generate_raises_engine_errors_witness :
  let self :=
    TextReporterDelta.Build_t
      (DeltaReporter.Build_t ExampleSource.stale_engine (Py.PyBool true))
      false in
  HtmlReporterDelta.generate self = Raise (KeyError "gone.py")
  /\ TextReporterDelta.generate Example.green Example.red
       ExampleSource.tabulate self = Raise (KeyError "gone.py")
  /\ engine_raises ExampleSource.stale_engine (KeyError "gone.py").
Proof.
  intros self.
  assert (Hhtml : HtmlReporterDelta.generate self = Raise (KeyError "gone.py"))
    by (vm_compute; reflexivity).
  split; [exact Hhtml|]. split; [vm_compute; reflexivity|].
  exact (proj2 (delta_generate_raises_engine_errors Example.green Example.red
                  ExampleSource.tabulate self (KeyError "gone.py")) Hhtml).
Defined.

(** ** [Reporter.get_report_lines] and the reporters of one snapshot *)

Section OneSnapshot.
Context {Src : Type}.
Variable self : Reporter.t Src.

Let c : CoverageSource.t Src := Reporter.cobertura self.

(** The row that the loop builds for a class file. *)
Let row_of (name : string) (row : Row Z Py.float (list Z)) : Prop :=
  exists s m r ml,
    CoverageSource.total_statements c (Some name) = Ok s
    /\ CoverageSource.total_misses c (Some name) = Ok m
    /\ CoverageSource.line_rate c (Some name) = Ok r
    /\ CoverageSource.missed_lines c name = Ok ml
    /\ row = ClassRowMissed name s m r ml.

Lemma report_rows_inv (names : list string) :
  forall lines out,
    Reporter.report_rows self names lines = Ok out ->
    exists rows, out = lines ++ rows /\ Forall2 row_of names rows.
Proof.
  induction names as [|name names IH]; intros lines out H; cbn in H.
  - injection H as <-. exists []. rewrite app_nil_r. split; constructor.
  - apply bind_ok in H as (s & Hs & H). apply bind_ok in H as (m & Hm & H).
    apply bind_ok in H as (r & Hr & H). apply bind_ok in H as (ml & Hml & H).
    apply IH in H as (rows & -> & Hrows).
    exists (ClassRowMissed name s m r ml :: rows). rewrite <- app_assoc.
    split; [reflexivity|]. constructor; [|exact Hrows].
    unfold row_of. eauto 10.
Qed.

Lemma report_rows_raises (names : list string) :
  forall lines e,
    Reporter.report_rows self names lines = Raise e -> source_raises c e.
Proof.
  induction names as [|name names IH]; intros lines e H; cbn in H;
    [discriminate|].
  fold c in H. unfold source_raises.
  destruct (CoverageSource.total_statements c (Some name)) as [s|e1] eqn:Hs;
    cbn [bind] in H; [|injection H as ->; left; eauto].
  destruct (CoverageSource.total_misses c (Some name)) as [m|e1] eqn:Hm;
    cbn [bind] in H; [|injection H as ->; left; eauto].
  destruct (CoverageSource.line_rate c (Some name)) as [r|e1] eqn:Hr;
    cbn [bind] in H; [|injection H as ->; left; eauto 6].
  destruct (CoverageSource.missed_lines c name) as [ml|e1] eqn:Hml;
    cbn [bind] in H; [|injection H as ->; right; eauto].
  now apply IH in H.
Qed.

Lemma report_rows_return (names : list string) :
  forallb
    (fun name =>
       is_ok (CoverageSource.total_statements c (Some name))
       && is_ok (CoverageSource.total_misses c (Some name))
       && is_ok (CoverageSource.line_rate c (Some name))
       && is_ok (CoverageSource.missed_lines c name))
    names = true ->
  forall lines, exists out, Reporter.report_rows self names lines = Ok out.
Proof.
  induction names as [|name names IH]; intros Hall lines; cbn; [eauto|].
  cbn in Hall. apply andb_prop in Hall as [Hname Hall].
  repeat (apply andb_prop in Hname as [Hname ?]).
  destruct (is_ok_true _ Hname) as [s Hs]. destruct (is_ok_true _ H1) as [m Hm].
  destruct (is_ok_true _ H0) as [r Hr]. destruct (is_ok_true _ H) as [ml Hml].
  fold c. rewrite Hs, Hm, Hr, Hml. cbn [bind]. now apply IH.
Qed.

Lemma reporter_lines_inv (lines : list (Row Z Py.float (list Z))) :
  Reporter.get_report_lines self = Ok lines ->
  exists rows s m r,
    lines = rows ++ [ClassRowMissed "TOTAL" s m r []]
    /\ Forall2 row_of (CoverageSource.class_files c) rows
    /\ CoverageSource.total_statements c None = Ok s
    /\ CoverageSource.total_misses c None = Ok m
    /\ CoverageSource.line_rate c None = Ok r.
Proof.
  unfold Reporter.get_report_lines. fold c. intros H.
  apply bind_ok in H as (rows & Hrows & H).
  apply bind_ok in H as (s & Hs & H). apply bind_ok in H as (m & Hm & H).
  apply bind_ok in H as (r & Hr & H). injection H as <-.
  apply report_rows_inv in Hrows as (rows' & -> & Hrows).
  exists rows', s, m, r. auto.
Qed.

Lemma reporter_lines_return :
  source_answers c = true ->
  exists lines, Reporter.get_report_lines self = Ok lines.
Proof.
  unfold source_answers. intros H.
  apply andb_prop in H as [H Hall].
  repeat (apply andb_prop in H as [H ?]).
  destruct (is_ok_true _ H) as [s Hs]. destruct (is_ok_true _ H1) as [m Hm].
  destruct (is_ok_true _ H0) as [r Hr].
  destruct (report_rows_return _ Hall []) as [rows Hrows].
  unfold Reporter.get_report_lines. fold c.
  rewrite Hrows, Hs, Hm, Hr. cbn. eauto.
Qed.

Lemma reporter_lines_raise (e : exn) :
  Reporter.get_report_lines self = Raise e -> source_raises c e.
Proof.
  unfold Reporter.get_report_lines. fold c.
  destruct (Reporter.report_rows self (CoverageSource.class_files c) [])
    as [rows|e1] eqn:Hrows; cbn [bind].
  - unfold source_raises.
    destruct (CoverageSource.total_statements c None) as [s|e1] eqn:Hs;
      cbn [bind]; [|intros H; injection H as ->; left; eauto].
    destruct (CoverageSource.total_misses c None) as [m|e1] eqn:Hm;
      cbn [bind]; [|intros H; injection H as ->; left; eauto].
    destruct (CoverageSource.line_rate c None) as [r|e1] eqn:Hr;
      cbn [bind]; [discriminate | intros H; injection H as ->; left; eauto 6].
  - intros H. injection H as ->. now apply report_rows_raises in Hrows.
Qed.

(** The formatted rows of a returned report: [format_row] raises on none. *)
Lemma reporter_rows_format (lines : list (Row Z Py.float (list Z))) :
  Reporter.get_report_lines self = Ok lines ->
  exists formatted,
    for_each TextReporter.format_row lines = Ok formatted
    /\ Forall2
         (fun row out =>
            class_filename out = class_filename row
            /\ total_statements out = total_statements row
            /\ total_misses out = total_misses row
            /\ line_rate out = Py.fmt_pct (line_rate row)
            /\ row_len out = 5%nat)
         lines formatted.
Proof.
  intros H. apply reporter_lines_inv in H as (rows & s & m & r & -> & Hrows & _).
  assert (Hall : List.Forall (fun row => row_len row = 5%nat)
                   (rows ++ [ClassRowMissed "TOTAL" s m r []])).
  { apply List.Forall_app. split; [|repeat constructor].
    clear -Hrows. induction Hrows as [|name row names rows Hrow _ IH];
      constructor; [|exact IH].
    destruct Hrow as (? & ? & ? & ? & _ & _ & _ & _ & ->). reflexivity. }
  induction Hall as [|row lines Hrow _ IH].
  - exists []. split; [reflexivity | constructor].
  - destruct IH as (formatted & Hformatted & Hall).
    destruct row as [|name s' m' r' ml]; [discriminate|].
    eexists (_ :: formatted). cbn [for_each]. cbn [TextReporter.format_row bind].
    rewrite Hformatted. cbn [bind]. split; [reflexivity|].
    constructor; [|exact Hall]. cbn. auto.
Qed.

End OneSnapshot.

Section OneSnapshotSources.
Context {Src : Type}.
Variable self : Reporter.t Src.

Lemma reporter_sources_inv (names : list string) :
  forall sources out,
    HtmlReporter.collect_sources self names sources = Ok out ->
    exists found,
      out = sources ++ found
      /\ map fst found = names
      /\ List.Forall
           (fun entry =>
              CoverageSource.class_file_source (Reporter.cobertura self)
                (fst entry) = Ok (snd entry))
           found.
Proof.
  induction names as [|name names IH]; intros sources out H; cbn in H.
  - injection H as <-. exists []. rewrite app_nil_r. repeat split; constructor.
  - apply bind_ok in H as (source & Hsource & H).
    apply IH in H as (found & -> & Hnames & Hall).
    exists ((name, source) :: found). rewrite <- app_assoc. cbn.
    rewrite Hnames. repeat split. constructor; auto.
Qed.

Lemma reporter_sources_raise (names : list string) :
  forall sources e,
    HtmlReporter.collect_sources self names sources = Raise e ->
    exists name,
      CoverageSource.class_file_source (Reporter.cobertura self) name
      = Raise e.
Proof.
  induction names as [|name names IH]; intros sources e H; cbn in H;
    [discriminate|].
  unfold HtmlReporter.get_source in H.
  destruct (CoverageSource.class_file_source (Reporter.cobertura self) name)
    as [source|e1] eqn:Hsource; cbn [bind] in H; [eauto|].
  injection H as ->. eauto.
Qed.

Lemma reporter_sources_return (names : list string) :
  forallb
    (fun name =>
       is_ok (CoverageSource.class_file_source (Reporter.cobertura self) name))
    names = true ->
  forall sources,
  exists out, HtmlReporter.collect_sources self names sources = Ok out.
Proof.
  induction names as [|name names IH]; intros Hall sources; cbn; [eauto|].
  cbn in Hall. apply andb_prop in Hall as [Hname Hall].
  destruct (is_ok_true _ Hname) as [source Hsource].
  unfold HtmlReporter.get_source. rewrite Hsource. cbn [bind]. now apply IH.
Qed.

End OneSnapshotSources.

(** X1: [Reporter.get_report_lines] has one five-field row for every class
    file, in the order of [class_files()] and with the numbers and missed
    lines the source gives for it, none left out, and then the [TOTAL] row
    with the totals of the snapshot and no missed line. *)
Theorem reporter_lines_cover_every_file {Src : Type} (self : Reporter.t Src)
  (Hanswers : source_answers (Reporter.cobertura self) = true) :
  exists rows s m r,
    Reporter.get_report_lines self =
    Ok (rows ++ [ClassRowMissed "TOTAL" s m r []])
    /\ CoverageSource.total_statements (Reporter.cobertura self) None = Ok s
    /\ CoverageSource.total_misses (Reporter.cobertura self) None = Ok m
    /\ CoverageSource.line_rate (Reporter.cobertura self) None = Ok r
    /\ Forall2
         (fun name row =>
            exists fs fm fr ml,
              CoverageSource.total_statements (Reporter.cobertura self)
                (Some name) = Ok fs
              /\ CoverageSource.total_misses (Reporter.cobertura self)
                   (Some name) = Ok fm
              /\ CoverageSource.line_rate (Reporter.cobertura self)
                   (Some name) = Ok fr
              /\ CoverageSource.missed_lines (Reporter.cobertura self) name
                 = Ok ml
              /\ row = ClassRowMissed name fs fm fr ml)
         (CoverageSource.class_files (Reporter.cobertura self)) rows.
Proof.
  destruct (reporter_lines_return self Hanswers) as [lines Hlines].
  destruct (reporter_lines_inv self lines Hlines)
    as (rows & s & m & r & -> & Hrows & Hs & Hm & Hr).
  exists rows, s, m, r. auto.
Qed.

Lemma reporter_lines_cover_every_file_witness :
  source_answers (Reporter.cobertura ExampleSource.reporter) = true
  /\ exists rows s m r,
      Reporter.get_report_lines ExampleSource.reporter =
      Ok (rows ++ [ClassRowMissed "TOTAL" s m r []])
      /\ map class_filename rows = ["a.py"; "b.py"].
Proof.
  assert (Hanswers :
            source_answers (Reporter.cobertura ExampleSource.reporter) = true)
    by (vm_compute; reflexivity).
  split; [exact Hanswers|].
  destruct (reporter_lines_cover_every_file ExampleSource.reporter Hanswers)
    as (rows & s & m & r & Hlines & _ & _ & _ & Hrows).
  exists rows, s, m, r. split; [exact Hlines|].
  change ["a.py"; "b.py"]
    with (CoverageSource.class_files (Reporter.cobertura ExampleSource.reporter)).
  clear -Hrows. induction Hrows as [|name row names rows Hrow _ IH];
    [reflexivity|].
  destruct Hrow as (? & ? & ? & ? & _ & _ & _ & _ & ->). cbn. now rewrite IH.
Defined.

(** X2: [TextReporter.generate] tabulates, under its five headers, one row
    for every report line: the name and the two counts as they are, the line
    rate as a percentage; no [format_row] raises. *)
Theorem text_generate_table {Src : Type}
  (tabulate : list (Row Z string string) -> list string -> string)
  (self : Reporter.t Src)
  (Hanswers : source_answers (Reporter.cobertura self) = true) :
  exists lines table,
    Reporter.get_report_lines self = Ok lines
    /\ TextReporter.generate tabulate self =
       Ok (tabulate table ["Filename"; "Stmts"; "Miss"; "Cover"; "Missing"])
    /\ Forall2
         (fun row out =>
            class_filename out = class_filename row
            /\ total_statements out = total_statements row
            /\ total_misses out = total_misses row
            /\ line_rate out = Py.fmt_pct (line_rate row)
            /\ row_len out = 5%nat)
         lines table
    /\ length table
       = S (length (CoverageSource.class_files (Reporter.cobertura self))).
Proof.
  destruct (reporter_lines_return self Hanswers) as [lines Hlines].
  destruct (reporter_rows_format self lines Hlines)
    as (table & Htable & Hall).
  exists lines, table. split; [exact Hlines|]. split; [|split].
  - unfold TextReporter.generate. rewrite Hlines. cbn [bind].
    now rewrite Htable.
  - exact Hall.
  - apply Forall2_length in Hall. rewrite <- Hall.
    destruct (reporter_lines_inv self lines Hlines)
      as (rows & s & m & r & -> & Hrows & _).
    apply Forall2_length in Hrows. rewrite length_app, <- Hrows. cbn. lia.
Qed.

Lemma text_generate_table_witness :
  source_answers (Reporter.cobertura ExampleSource.reporter) = true
  /\ exists table : list (Row Z string string),
      TextReporter.generate (fun (rows : list (Row Z string string)) (_ : list string) =>
           Py.join "; " (map class_filename rows))
        ExampleSource.reporter =
      Ok (Py.join "; " (map class_filename table))
      /\ length table = 3%nat.
Proof.
  assert (Hanswers :
            source_answers (Reporter.cobertura ExampleSource.reporter) = true)
    by (vm_compute; reflexivity).
  split; [exact Hanswers|].
  destruct (text_generate_table
              (fun (rows : list (Row Z string string)) (_ : list string) =>
           Py.join "; " (map class_filename rows))
              ExampleSource.reporter Hanswers)
    as (lines & table & _ & Hgenerate & _ & Hlength).
  exists table. split; [exact Hgenerate | exact Hlength].
Defined.

(** X3: [HtmlReporter.generate] hands to the template one line and one source
    for every class file, both in the order of [class_files()], so that the
    n-th source belongs to the n-th line, and the [TOTAL] row as the
    footer. *)
Theorem html_generate_lines_and_sources {Src : Type} (self : Reporter.t Src)
  (Hanswers : source_answers (Reporter.cobertura self) = true)
  (Htext : source_answers_text (Reporter.cobertura self) = true) :
  exists kwargs,
    HtmlReporter.generate self = Ok kwargs
    /\ map class_filename (HtmlReporter.kw_lines kwargs)
       = CoverageSource.class_files (Reporter.cobertura self)
    /\ map fst (HtmlReporter.kw_sources kwargs)
       = CoverageSource.class_files (Reporter.cobertura self)
    /\ List.Forall
         (fun entry =>
            CoverageSource.class_file_source (Reporter.cobertura self)
              (fst entry) = Ok (snd entry))
         (HtmlReporter.kw_sources kwargs)
    /\ class_filename (HtmlReporter.kw_footer kwargs) = "TOTAL".
Proof.
  destruct (reporter_lines_return self Hanswers) as [lines Hlines].
  destruct (reporter_rows_format self lines Hlines)
    as (formatted & Hformatted & Hall).
  destruct (reporter_lines_inv self lines Hlines)
    as (rows & s & m & r & -> & Hrows & _).
  apply Forall2_app_inv_l in Hall as (body & last & Hbody & Hlast & ->).
  apply Forall2_cons_inv_l in Hlast as (out & nil & Hout & Hnil & ->).
  apply Forall2_nil_inv_l in Hnil as ->.
  destruct (reporter_sources_return self _ Htext []) as [sources Hsources].
  destruct (reporter_sources_inv self _ _ _ Hsources)
    as (found & Heq & Hnames & Hfound).
  cbn in Heq. subst found.
  eexists. split.
  { unfold HtmlReporter.generate. rewrite Hlines. cbn [bind].
    rewrite Hformatted. cbn [bind]. rewrite Hsources. cbn [bind].
    rewrite last_item_snoc. cbn [bind]. reflexivity. }
  cbn [HtmlReporter.kw_lines HtmlReporter.kw_footer HtmlReporter.kw_sources].
  rewrite removelast_snoc. repeat split; auto.
  - clear -Hrows Hbody. revert body Hbody.
    induction Hrows as [|name row names rows Hrow _ IH]; intros body Hbody.
    + now apply Forall2_nil_inv_l in Hbody as ->.
    + apply Forall2_cons_inv_l in Hbody as (out & body' & [Hname _] & Hbody & ->).
      cbn. rewrite (IH _ Hbody), Hname.
      destruct Hrow as (? & ? & ? & ? & _ & _ & _ & _ & ->). reflexivity.
  - now destruct Hout as [-> _].
Qed.

Lemma html_generate_lines_and_sources_witness :
  source_answers (Reporter.cobertura ExampleSource.reporter) = true
  /\ source_answers_text (Reporter.cobertura ExampleSource.reporter) = true
  /\ exists kwargs,
      HtmlReporter.generate ExampleSource.reporter = Ok kwargs
      /\ map class_filename (HtmlReporter.kw_lines kwargs) = ["a.py"; "b.py"]
      /\ map fst (HtmlReporter.kw_sources kwargs) = ["a.py"; "b.py"]
      /\ class_filename (HtmlReporter.kw_footer kwargs) = "TOTAL".
Proof.
  assert (Hanswers :
            source_answers (Reporter.cobertura ExampleSource.reporter) = true)
    by (vm_compute; reflexivity).
  assert (Htext :
            source_answers_text (Reporter.cobertura ExampleSource.reporter)
            = true) by (vm_compute; reflexivity).
  repeat (split; [assumption|]).
  destruct (html_generate_lines_and_sources ExampleSource.reporter
              Hanswers Htext)
    as (kwargs & Hgenerate & Hlines & Hsources & _ & Hfooter).
  exists kwargs. auto.
Defined.

(** X4: whatever [generate] of [TextReporter] and of [HtmlReporter] raises
    was raised by a method of the coverage source: unpacking the rows and
    taking the footer raise nothing of their own. *)
Theorem generate_raises_source_errors {Src : Type}
  (tabulate : list (Row Z string string) -> list string -> string)
  (self : Reporter.t Src) (e : exn) :
  (TextReporter.generate tabulate self = Raise e ->
   source_raises (Reporter.cobertura self) e)
  /\ (HtmlReporter.generate self = Raise e ->
      source_raises (Reporter.cobertura self) e).
Proof.
  unfold TextReporter.generate, HtmlReporter.generate.
  destruct (Reporter.get_report_lines self) as [lines|e1] eqn:Hlines;
    cbn [bind].
  - destruct (reporter_rows_format self lines Hlines)
      as (formatted & -> & Hall).
    cbn [bind]. split; [discriminate|].
    destruct (reporter_lines_inv self lines Hlines)
      as (rows & s & m & r & -> & _).
    apply Forall2_app_inv_l in Hall as (body & last & _ & Hlast & ->).
    apply Forall2_cons_inv_l in Hlast as (out & nil & _ & Hnil & ->).
    apply Forall2_nil_inv_l in Hnil as ->.
    rewrite last_item_snoc.
    destruct (HtmlReporter.collect_sources self
                (CoverageSource.class_files (Reporter.cobertura self)) [])
      as [sources|e1] eqn:Hsources; cbn [bind]; [discriminate|].
    intros H. injection H as ->.
    apply reporter_sources_raise in Hsources as [name Hname].
    right. eauto.
  - split; intros H; injection H as ->;
      now apply reporter_lines_raise in Hlines.
Qed.

Lemma generate_raises_source_errors_witness :
  let self := {| Reporter.cobertura := ExampleSource.source_without_text |} in
  HtmlReporter.generate self = Raise (KeyError "b.py")
  /\ source_raises ExampleSource.source_without_text (KeyError "b.py").
Proof.
  intros self.
  assert (Hhtml : HtmlReporter.generate self = Raise (KeyError "b.py"))
    by (vm_compute; reflexivity).
  split; [exact Hhtml|].
  exact (proj2 (generate_raises_source_errors
                  (fun _ _ => "") self (KeyError "b.py")) Hhtml).
Defined.

(** ** What a report without missed lines does not ask *)

Lemma get_report_lines_without_lines (d : Differ)
  (missed : string -> result (list (Z * bool)))
  (hunks : string -> result (list Hunk)) :
  DeltaReporter.get_report_lines
    (DeltaReporter.Build_t
       (Build_Differ (class_files d) (diff_total_statements d)
          (diff_total_misses d) (diff_line_rate d) missed hunks)
       (Py.PyBool false))
  = DeltaReporter.get_report_lines (DeltaReporter.Build_t d (Py.PyBool false)).
Proof.
  unfold DeltaReporter.get_report_lines. cbn [DeltaReporter.differ class_files].
  assert (Hrows : forall names lines,
            DeltaReporter.report_class_rows
              (DeltaReporter.Build_t
                 (Build_Differ (class_files d) (diff_total_statements d)
                    (diff_total_misses d) (diff_line_rate d) missed hunks)
                 (Py.PyBool false)) names lines
            = DeltaReporter.report_class_rows (DeltaReporter.Build_t d (Py.PyBool false))
                names lines).
  { induction names as [|name names IH]; intros lines; [reflexivity|].
    cbn [DeltaReporter.report_class_rows].
    change (DeltaReporter.get_class_row
              (DeltaReporter.Build_t
                 (Build_Differ (class_files d) (diff_total_statements d)
                    (diff_total_misses d) (diff_line_rate d) missed hunks)
                 (Py.PyBool false)) name)
      with (DeltaReporter.get_class_row (DeltaReporter.Build_t d (Py.PyBool false)) name).
    destruct (DeltaReporter.get_class_row (DeltaReporter.Build_t d (Py.PyBool false)) name)
      as [row|e]; cbn [bind]; [|reflexivity].
    destruct (any_tail row); apply IH. }
  rewrite Hrows. reflexivity.
Qed.

(** X11: with [show_source] unset, [generate] of the two delta reporters asks
    the engine neither for missed lines nor for source hunks: whatever these
    two methods do, the result is the same. *)
Theorem delta_generate_without_source (green red : string -> string)
  (tabulate : list (list string) -> list string -> string)
  (d : Differ) (color : bool)
  (missed : string -> result (list (Z * bool)))
  (hunks : string -> result (list Hunk)) :
  HtmlReporterDelta.generate
    (TextReporterDelta.Build_t
       (DeltaReporter.Build_t
          (Build_Differ (class_files d) (diff_total_statements d)
             (diff_total_misses d) (diff_line_rate d) missed hunks)
          (Py.PyBool false))
       color)
  = HtmlReporterDelta.generate
      (TextReporterDelta.Build_t (DeltaReporter.Build_t d (Py.PyBool false)) color)
  /\ TextReporterDelta.generate green red tabulate
       (TextReporterDelta.Build_t
          (DeltaReporter.Build_t
             (Build_Differ (class_files d) (diff_total_statements d)
                (diff_total_misses d) (diff_line_rate d) missed hunks)
             (Py.PyBool false))
          color)
     = TextReporterDelta.generate green red tabulate
         (TextReporterDelta.Build_t (DeltaReporter.Build_t d (Py.PyBool false)) color).
Proof.
  unfold HtmlReporterDelta.generate, TextReporterDelta.generate.
  cbn [TextReporterDelta.base TextReporterDelta.show_source
         DeltaReporter.show_source].
  rewrite !get_report_lines_without_lines. split; reflexivity.
Qed.
